(** * Presence toggle and QR token protocol of the event server

    A shallow embedding of the scan handlers of
    [server/src/controllers/volunteer.controller.js] and
    [server/src/controllers/student.controller.js], of the model methods
    they call, and of the token codec they rely on.

    Tables are lists of rows (row order is what [LIMIT 1] observes), the
    volunteers table is a finite map keyed by its primary key, timestamps
    are milliseconds since the epoch as [Z], and a handler is a function
    from the database before the request to the database after it together
    with the reply that was sent. *)

From Stdlib Require Import ZArith Lia.
From stdpp Require Import base decidable option list strings gmap pretty.

Local Open Scope Z_scope.
Local Open Scope string_scope.

(** ** Rows *)

Module Student.
Record t := mk {
  id : string;
  full_name : string;
  registration_no : string;
  school_name : string;
  is_inside_event : bool;
  last_checkin_at : option Z;
  last_checkout_at : option Z;
  total_scan_count : Z;
  total_active_duration_minutes : Z;
  feedback_count : Z
}.
End Student.

Module Volunteer.
Record t := mk {
  id : string;
  email : string;
  full_name : string;
  assigned_location : string;
  is_active : bool;
  total_scans_performed : Z
}.
End Volunteer.

Inductive scan_type := CHECKIN | CHECKOUT.

Module CheckInOut.
Record t := mk {
  id : Z;
  student_id : string;
  volunteer_id : string;
  scan_type_of : scan_type;
  scan_number : Z;
  duration_minutes : option Z
}.
End CheckInOut.

Module Stall.
Record t (Token : Type) := mk {
  id : string;
  stall_number : string;
  stall_name : string;
  school_name : string;
  description : string;
  location : string;
  qr_code_token : option Token;
  total_feedback_count : Z
}.
Arguments mk {Token}.
Arguments id {Token}.
Arguments stall_number {Token}.
Arguments stall_name {Token}.
Arguments school_name {Token}.
Arguments description {Token}.
Arguments location {Token}.
Arguments qr_code_token {Token}.
Arguments total_feedback_count {Token}.
End Stall.

Module Feedback.
Record t := mk {
  id : Z;
  student_id : string;
  stall_id : string;
  rating : Z;
  comment : option string;
  submitted_at : Z
}.
End Feedback.

(** ** The database *)

Record DB (Token : Type) := mkDB {
  students : list Student.t;
  volunteers : gmap string Volunteer.t;
  check_in_outs : list CheckInOut.t;
  stalls : list (Stall.t Token);
  feedbacks : list Feedback.t
}.
Arguments mkDB {Token}.
Arguments students {Token}.
Arguments volunteers {Token}.
Arguments check_in_outs {Token}.
Arguments stalls {Token}.
Arguments feedbacks {Token}.

(** ** Replies

    [successResponse] and [errorResponse] send a status code, a message and
    a payload; the [catch] of every handler hands the error to [next]. *)

Inductive Reply (D : Type) :=
| Sent (statusCode : Z) (success : bool) (message : string) (data : option D)
| Next (error : string).
Arguments Sent {D}.
Arguments Next {D}.

Definition successResponse {D} (data : D) (message : string) (statusCode : Z)
  : Reply D := Sent statusCode true message (Some data).

Definition errorResponse {D} (message : string) (statusCode : Z)
  : Reply D := Sent statusCode false message None.

Definition statusOf {D} (r : Reply D) : option Z :=
  match r with Sent c _ _ _ => Some c | Next _ => None end.

Definition accepted {D} (r : Reply D) : bool :=
  match r with Sent _ ok _ _ => ok | Next _ => false end.

(** ** Awaited database calls

    Every awaited call either yields a value or throws; the writes that came
    before a throw stay in the database (the handlers open no transaction). *)

Inductive result (A : Type) := Ok (a : A) | Throw (e : string).
Arguments Ok {A}.
Arguments Throw {A}.

Section Monad.
Context {Token : Type}.

Definition M (A : Type) : Type := DB Token -> DB Token * result A.

Definition ret {A} (a : A) : M A := fun db => (db, Ok a).

Definition throw {A} (e : string) : M A := fun db => (db, Throw e).

Definition bind {A B} (m : M A) (k : A -> M B) : M B :=
  fun db => match m db with
            | (db', Ok a) => k a db'
            | (db', Throw e) => (db', Throw e)
            end.

Definition get : M (DB Token) := fun db => (db, Ok db).

Definition modify (f : DB Token -> DB Token) : M unit :=
  fun db => (f db, Ok tt).

(** A write that the environment may make fail. *)
Definition failing (fails : bool) (what : string) : M unit :=
  if fails then throw what else ret tt.

(** Reading a property of [null] throws a [TypeError]. *)
Definition deref {A} (o : option A) : M A :=
  match o with Some a => ret a | None => throw "TypeError" end.

(** [try { ... } catch (error) { next(error) }] *)
Definition handler {D} (body : M (Reply D)) : DB Token -> DB Token * Reply D :=
  fun db => match body db with
            | (db', Ok r) => (db', r)
            | (db', Throw e) => (db', Next e)
            end.
End Monad.
Arguments M : clear implicits.

Notation "'let*' x ':=' m 'in' k" := (bind m (fun x => k))
  (at level 10, x name, m at level 100, k at level 200).
Notation "'run' m 'in' k" := (bind m (fun _ => k))
  (at level 10, m at level 100, k at level 200).

(** ** The environment of one request

    [now] is the server clock when the request is handled.  [Faults] says
    which of the writes of the request the database refuses. *)

Record Faults := mkFaults {
  toggle_fails : bool;
  ledger_fails : bool;
  duration_fails : bool;
  counter_fails : bool
}.

Definition no_faults : Faults := mkFaults false false false false.

(** A write that comes after the toggle is refused although the toggle
    itself went through. *)
Definition fails_after_toggle (f : Faults) : bool :=
  negb (toggle_fails f) &&
  (ledger_fails f || duration_fails f || counter_fails f).

Record Env := mkEnv { now : Z; faults : Faults }.

(** ** Model methods *)

Section Models.
Context {Token : Type} `{EqDecision Token}.

Definition set_students (f : list Student.t -> list Student.t)
  (db : DB Token) : DB Token :=
  mkDB (f (students db)) (volunteers db) (check_in_outs db) (stalls db)
       (feedbacks db).

Definition set_volunteers
  (f : gmap string Volunteer.t -> gmap string Volunteer.t)
  (db : DB Token) : DB Token :=
  mkDB (students db) (f (volunteers db)) (check_in_outs db) (stalls db)
       (feedbacks db).

Definition set_check_in_outs (f : list CheckInOut.t -> list CheckInOut.t)
  (db : DB Token) : DB Token :=
  mkDB (students db) (volunteers db) (f (check_in_outs db)) (stalls db)
       (feedbacks db).

Definition set_stalls (f : list (Stall.t Token) -> list (Stall.t Token))
  (db : DB Token) : DB Token :=
  mkDB (students db) (volunteers db) (check_in_outs db) (f (stalls db))
       (feedbacks db).

Definition set_feedbacks (f : list Feedback.t -> list Feedback.t)
  (db : DB Token) : DB Token :=
  mkDB (students db) (volunteers db) (check_in_outs db) (stalls db)
       (f (feedbacks db)).

(** [Volunteer.findById]: [SELECT * FROM volunteers WHERE id = $1 LIMIT 1]. *)
Definition Volunteer_findById (id : string) : M Token (option Volunteer.t) :=
  let* db := get in ret (volunteers db !! id).

(** [UPDATE volunteers SET total_scans_performed = total_scans_performed + 1
    WHERE id = $1], the raw query of the scan handler. *)
Definition bump_scans (v : Volunteer.t) : Volunteer.t :=
  Volunteer.mk (Volunteer.id v) (Volunteer.email v) (Volunteer.full_name v)
    (Volunteer.assigned_location v) (Volunteer.is_active v)
    (Volunteer.total_scans_performed v + 1).

Definition increment_scans_performed (e : Env) (id : string) : M Token unit :=
  run failing (counter_fails (faults e)) "volunteers update failed" in
  modify (set_volunteers (alter bump_scans id)).

(** Modelled from the spec: [Student.model.js] is not among the sources.
    The lookups follow the sibling models ([SELECT ... WHERE key = $1
    LIMIT 1]): the first row of the table with that key, or [null]. *)
Definition has_registration_no (r : string) (s : Student.t) : bool :=
  bool_decide (Student.registration_no s = r).

Definition has_id (i : string) (s : Student.t) : bool :=
  bool_decide (Student.id s = i).

Definition Student_findByRegistrationNo (r : string) : M Token (option Student.t) :=
  let* db := get in ret (find (has_registration_no r) (students db)).

Definition Student_findById (i : string) : M Token (option Student.t) :=
  let* db := get in ret (find (has_id i) (students db)).

(** Modelled from the spec: [Student.processCheckInOut] is the presence
    store's [ToggleAndRecord] (section 4.3): it flips the state, an
    OUTSIDE to INSIDE flip sets the entry time to [now], an INSIDE to
    OUTSIDE flip sets the exit time to [now] and leaves the entry time,
    and the scan count goes up by one.  It returns the updated row. *)
Definition toggle (now : Z) (s : Student.t) : Student.t :=
  if Student.is_inside_event s then
    Student.mk (Student.id s) (Student.full_name s)
      (Student.registration_no s) (Student.school_name s)
      false (Student.last_checkin_at s) (Some now)
      (Student.total_scan_count s + 1)
      (Student.total_active_duration_minutes s) (Student.feedback_count s)
  else
    Student.mk (Student.id s) (Student.full_name s)
      (Student.registration_no s) (Student.school_name s)
      true (Some now) (Student.last_checkout_at s)
      (Student.total_scan_count s + 1)
      (Student.total_active_duration_minutes s) (Student.feedback_count s).

Definition update_where (i : string) (f : Student.t -> Student.t)
  (l : list Student.t) : list Student.t :=
  (fun s => if has_id i s then f s else s) <$> l.

Definition Student_processCheckInOut (e : Env) (i : string)
  : M Token (option Student.t) :=
  run failing (toggle_fails (faults e)) "students update failed" in
  run modify (set_students (update_where i (toggle (now e)))) in
  Student_findById i.

(** Modelled from the spec: [Student.updateActiveDuration] adds the minutes
    of a visit to the attendee's accumulated minutes. *)
Definition add_duration (m : Z) (s : Student.t) : Student.t :=
  Student.mk (Student.id s) (Student.full_name s)
    (Student.registration_no s) (Student.school_name s)
    (Student.is_inside_event s) (Student.last_checkin_at s)
    (Student.last_checkout_at s) (Student.total_scan_count s)
    (Student.total_active_duration_minutes s + m) (Student.feedback_count s).

Definition Student_updateActiveDuration (e : Env) (i : string) (m : Z)
  : M Token unit :=
  run failing (duration_fails (faults e)) "students update failed" in
  modify (set_students (update_where i (add_duration m))).

(** Modelled from the spec: [CheckInOut.create] appends one row to the scan
    ledger with the fields it is given and returns it. *)
Definition CheckInOut_create (e : Env) (student_id volunteer_id : string)
  (ty : scan_type) (scan_number : Z) (duration : option Z)
  : M Token CheckInOut.t :=
  run failing (ledger_fails (faults e)) "check_in_outs insert failed" in
  let* db := get in
  let row := CheckInOut.mk (Z.of_nat (length (check_in_outs db)))
               student_id volunteer_id ty scan_number duration in
  run modify (set_check_in_outs (fun l => (l ++ [row])%list)) in
  ret row.
End Models.

(** ** The scan handler of the volunteer controller *)

Inductive Action := ENTRY | EXIT.

Definition Action_eqb (a b : Action) : bool :=
  match a, b with
  | ENTRY, ENTRY | EXIT, EXIT => true
  | _, _ => false
  end.

Definition flip (a : Action) : Action :=
  match a with ENTRY => EXIT | EXIT => ENTRY end.

(** What a token verifier of [QRCodeService] returns. *)
Record Decoded := mkDecoded {
  valid : bool;
  isStatic : bool;
  registration_no : string
}.

Record ScanRequest (Token : Type) := mkScanRequest {
  user_id : string;
  user_email : string;
  qr_code_token : option Token
}.
Arguments mkScanRequest {Token}.
Arguments user_id {Token}.
Arguments user_email {Token}.
Arguments qr_code_token {Token}.

(** The [student] object of the reply; a field that the handler does not set
    is [None]. *)
Record StudentSummary := mkStudentSummary {
  id : string;
  full_name : string;
  summary_registration_no : string;
  school_name : string;
  is_inside_event : bool;
  total_scan_count : Z;
  check_in_time : option (option Z);
  check_out_time : option (option Z);
  duration_minutes : option Z;
  duration_formatted : option string
}.

Record ScanDetails := mkScanDetails {
  timestamp : Z;
  volunteer_id : string;
  volunteer_email : string
}.

Record ScanData := mkScanData {
  student : StudentSummary;
  action : Action;
  scan_details : ScanDetails;
  message : string
}.

(** [`${Math.floor(durationMinutes / 60)}h ${durationMinutes % 60}m`] *)
Definition format_duration (durationMinutes : Z) : string :=
  pretty (durationMinutes / 60) +:+ "h " +:+
  pretty (Z.rem durationMinutes 60) +:+ "m".

Section ScanStudentQR.
Context {Token : Type} `{EqDecision Token}.

(** The two verifiers of [QRCodeService] the handler calls: the rotating
    one reads the clock, the static one may return [null]. *)
Variable verifyRotatingStudentToken : Z -> Token -> Decoded.
Variable verifyStudentQRToken : Token -> option Decoded.

(** Step 1 of the handler: rotating first, static as a fallback. *)
Definition verify_token (e : Env) (tok : Token) : option Decoded :=
  let decoded := verifyRotatingStudentToken (now e) tok in
  if negb (valid decoded) && isStatic decoded
  then verifyStudentQRToken tok
  else Some decoded.

Definition inactive (volunteer : option Volunteer.t) : bool :=
  match volunteer with
  | Some v => negb (Volunteer.is_active v)
  | None => false
  end.

Definition scan_reply (e : Env) (req : ScanRequest Token)
  (student updatedStudent : Student.t) (action : Action)
  (durationMinutes : Z) : Reply ScanData :=
  let summary := fun cin cout dur fmt =>
    mkStudentSummary (Student.id updatedStudent)
      (Student.full_name updatedStudent)
      (Student.registration_no updatedStudent)
      (Student.school_name updatedStudent)
      (Student.is_inside_event updatedStudent)
      (Student.total_scan_count updatedStudent) cin cout dur fmt in
  let details := mkScanDetails (now e) (user_id req) (user_email req) in
  match action with
  | ENTRY =>
      successResponse
        (mkScanData
           (summary (Some (Student.last_checkin_at updatedStudent)) None
              None None)
           action details
           ("Welcome " +:+ Student.full_name student +:+ "! Enjoy the event."))
        "Student checked in successfully at entry gate" 201
  | EXIT =>
      let formatted := format_duration durationMinutes in
      successResponse
        (mkScanData
           (summary None (Some (Student.last_checkout_at updatedStudent))
              (Some durationMinutes) (Some formatted))
           action details
           ("Goodbye " +:+ Student.full_name student +:+ "! You spent " +:+
            formatted +:+ " at the event."))
        "Student checked out successfully at exit gate" 200
  end.

(** Steps 4 to 9 of the handler: decide the action from the row that was
    read, toggle, write the ledger, count the scan for the volunteer and
    build the reply. *)
Definition toggle_and_record (e : Env) (req : ScanRequest Token)
  (student : Student.t) : M Token (Reply ScanData) :=
  let isCurrentlyInside := Student.is_inside_event student in
  let action := if isCurrentlyInside then EXIT else ENTRY in
  let previousCheckInTime := Student.last_checkin_at student in
  let* updatedStudent := Student_processCheckInOut e (Student.id student) in
  let* durationMinutes :=
    match action, previousCheckInTime with
    | ENTRY, _ =>
        let* u := deref updatedStudent in
        run CheckInOut_create e (Student.id student) (user_id req)
              CHECKIN (Student.total_scan_count u) None in
        ret 0
    | EXIT, Some checkInTime =>
        let* u := deref updatedStudent in
        let checkOutTime := default 0 (Student.last_checkout_at u) in
        let durationMinutes := (checkOutTime - checkInTime) / (1000 * 60) in
        run CheckInOut_create e (Student.id student) (user_id req)
              CHECKOUT (Student.total_scan_count u) (Some durationMinutes) in
        run Student_updateActiveDuration e (Student.id student)
              durationMinutes in
        ret durationMinutes
    | EXIT, None => ret 0
    end in
  run increment_scans_performed e (user_id req) in
  let* u := deref updatedStudent in
  ret (scan_reply e req student u action durationMinutes).

Definition scanStudentQR (e : Env) (req : ScanRequest Token)
  : DB Token -> DB Token * Reply ScanData :=
  handler
    match qr_code_token req with
    | None => ret (errorResponse "QR code token is required" 400)
    | Some tok =>
    match verify_token e tok with
    | None => ret (errorResponse "Invalid QR code" 400)
    | Some decoded =>
    if negb (valid decoded) then ret (errorResponse "Invalid QR code" 400)
    else
    let* student := Student_findByRegistrationNo (registration_no decoded) in
    match student with
    | None =>
        ret (errorResponse
               ("Student not found. Registration: " +:+
                registration_no decoded) 404)
    | Some student =>
    let* volunteer := Volunteer_findById (user_id req) in
    if inactive volunteer
    then ret (errorResponse
                "Your volunteer account is inactive. Contact admin." 403)
    else toggle_and_record e req student
    end end end.
End ScanStudentQR.

(** ** Runs of the scan handler *)

Record ScanEvent (Token : Type) := mkScanEvent {
  ev_env : Env;
  ev_req : ScanRequest Token
}.
Arguments mkScanEvent {Token}.
Arguments ev_env {Token}.
Arguments ev_req {Token}.

Section Runs.
Context {Token : Type} `{EqDecision Token}.
Variable verifyRotatingStudentToken : Z -> Token -> Decoded.
Variable verifyStudentQRToken : Token -> option Decoded.

(** Steps 1 to 3 of the handler, everything before the toggle: the error
    reply that ends the request, or the verified token and the student. *)
Definition gate (e : Env) (req : ScanRequest Token) (db : DB Token)
  : Reply ScanData + Decoded * Student.t :=
  match qr_code_token req with
  | None => inl (errorResponse "QR code token is required" 400)
  | Some tok =>
  match verify_token verifyRotatingStudentToken verifyStudentQRToken e tok with
  | None => inl (errorResponse "Invalid QR code" 400)
  | Some decoded =>
  if negb (valid decoded) then inl (errorResponse "Invalid QR code" 400)
  else
  match find (has_registration_no (registration_no decoded)) (students db) with
  | None =>
      inl (errorResponse
             ("Student not found. Registration: " +:+
              registration_no decoded) 404)
  | Some student =>
  if inactive (volunteers db !! user_id req)
  then inl (errorResponse
              "Your volunteer account is inactive. Contact admin." 403)
  else inr (decoded, student)
  end end end.

(** Requests handled one after the other. *)
Fixpoint run_scans (evs : list (ScanEvent Token)) (db : DB Token)
  : DB Token * list (Reply ScanData) :=
  match evs with
  | [] => (db, [])
  | ev :: rest =>
      let (db1, r) :=
        scanStudentQR verifyRotatingStudentToken verifyStudentQRToken
          (ev_env ev) (ev_req ev) db in
      let (db2, rs) := run_scans rest db1 in
      (db2, r :: rs)
  end.
End Runs.

(** The presence state of the attendee with registration number [r]. *)
Definition presence {Token} (r : string) (db : DB Token) : option bool :=
  Student.is_inside_event <$> find (has_registration_no r) (students db).

(** The presence state of the row with primary key [i]. *)
Definition presence_of_id {Token} (i : string) (db : DB Token) : option bool :=
  Student.is_inside_event <$> find (has_id i) (students db).

(** The action of an accepted scan of attendee [r]. *)
Definition accepted_action (r : string) (reply : Reply ScanData)
  : option Action :=
  match reply with
  | Sent _ true _ (Some d) =>
      if bool_decide (summary_registration_no (student d) = r)
      then Some (action d) else None
  | _ => None
  end.

Definition accepted_actions (r : string) (replies : list (Reply ScanData))
  : list Action := omap (accepted_action r) replies.

Fixpoint alternates (first : Action) (l : list Action) : bool :=
  match l with
  | [] => true
  | a :: rest => Action_eqb a first && alternates (flip first) rest
  end.

Definition action_for (inside : bool) : Action :=
  if inside then EXIT else ENTRY.

(** The primary key of the students table. *)
Definition primary_key {Token} (db : DB Token) : Prop :=
  NoDup (Student.id <$> students db).

(** ** The stall handlers of the student controller *)

(** What [QRCodeService.verifyStallQRToken] returns. *)
Record StallDecoded := mkStallDecoded {
  stall_valid : bool;
  stall_number_of : string
}.

Record StallRequest (Token : Type) := mkStallRequest {
  stall_user_id : string;
  stall_qr_token : option Token
}.
Arguments mkStallRequest {Token}.
Arguments stall_user_id {Token}.
Arguments stall_qr_token {Token}.

Record StallSummary := mkStallSummary {
  stall_id : string;
  stall_number : string;
  stall_name : string;
  stall_school_name : string;
  stall_description : string;
  stall_location : string
}.

Record ExistingFeedback := mkExistingFeedback {
  existing_rating : Z;
  existing_comment : option string;
  existing_submitted_at : Z
}.

Record StallScanData := mkStallScanData {
  stall : StallSummary;
  already_reviewed : bool;
  existing_feedback : option ExistingFeedback
}.

Record FeedbackRequest := mkFeedbackRequest {
  feedback_user_id : string;
  req_stall_id : option string;
  req_rating : option Z;
  req_comment : option string
}.

Record FeedbackSummary := mkFeedbackSummary {
  fb_id : Z;
  fb_stall_name : string;
  fb_stall_number : string;
  fb_rating : Z;
  fb_comment : option string;
  fb_submitted_at : Z
}.

Record FeedbackData := mkFeedbackData {
  feedback : FeedbackSummary;
  total_feedbacks_given : Z;
  remaining_feedbacks : Z
}.

Section StallHandlers.
Context {Token : Type} `{EqDecision Token}.
Variable verifyStallQRToken : Token -> option StallDecoded.

(** [Stall.findByQRToken]: [WHERE s.qr_code_token = $1 LIMIT 1]. *)
Definition has_qr_token (token : Token) (s : Stall.t Token) : bool :=
  bool_decide (Stall.qr_code_token s = Some token).

Definition Stall_findByQRToken (token : Token)
  : M Token (option (Stall.t Token)) :=
  let* db := get in ret (find (has_qr_token token) (stalls db)).

(** [Stall.findById]: [WHERE s.id = $1 LIMIT 1]. *)
Definition stall_has_id (i : string) (s : Stall.t Token) : bool :=
  bool_decide (Stall.id s = i).

Definition Stall_findById (i : string) : M Token (option (Stall.t Token)) :=
  let* db := get in ret (find (stall_has_id i) (stalls db)).

(** Modelled from the spec: [Feedback.model.js] is not among the sources
    and feedback is outside the specified core; the methods are read off
    their call sites: lookups by student and stall, a count per student,
    and an insert that returns the new row. *)
Definition feedback_of (student_id stall_id : string) (f : Feedback.t)
  : bool :=
  bool_decide (Feedback.student_id f = student_id) &&
  bool_decide (Feedback.stall_id f = stall_id).

Definition Feedback_findByStudentAndStall (student_id stall_id : string)
  : M Token (option Feedback.t) :=
  let* db := get in ret (find (feedback_of student_id stall_id) (feedbacks db)).

Definition Feedback_countByStudent (student_id : string) : M Token Z :=
  let* db := get in
  ret (Z.of_nat (length (filter
         (fun f => Feedback.student_id f = student_id) (feedbacks db)))).

Definition Feedback_create (e : Env) (student_id stall_id : string)
  (rating : Z) (comment : option string) : M Token Feedback.t :=
  let* db := get in
  let row := Feedback.mk (Z.of_nat (length (feedbacks db)))
               student_id stall_id rating comment (now e) in
  run modify (set_feedbacks (fun l => (l ++ [row])%list)) in
  ret row.

(** Modelled from the spec: [Student.incrementFeedbackCount] adds one to
    the feedback counter of the student row. *)
Definition bump_feedback (s : Student.t) : Student.t :=
  Student.mk (Student.id s) (Student.full_name s)
    (Student.registration_no s) (Student.school_name s)
    (Student.is_inside_event s) (Student.last_checkin_at s)
    (Student.last_checkout_at s) (Student.total_scan_count s)
    (Student.total_active_duration_minutes s) (Student.feedback_count s + 1).

Definition Student_incrementFeedbackCount (i : string) : M Token unit :=
  modify (set_students (update_where i bump_feedback)).

(** [UPDATE stalls SET total_feedback_count = total_feedback_count + 1
    WHERE id = $1], the raw query of [submitFeedback]. *)
Definition bump_stall (i : string) (s : Stall.t Token) : Stall.t Token :=
  if stall_has_id i s then
    Stall.mk (Stall.id s) (Stall.stall_number s) (Stall.stall_name s)
      (Stall.school_name s) (Stall.description s) (Stall.location s)
      (Stall.qr_code_token s) (Stall.total_feedback_count s + 1)
  else s.

Definition stall_invalid (d : option StallDecoded) : bool :=
  match d with
  | None => true
  | Some d => negb (stall_valid d)
  end.

Definition summary_of_stall (s : Stall.t Token) : StallSummary :=
  mkStallSummary (Stall.id s) (Stall.stall_number s) (Stall.stall_name s)
    (Stall.school_name s) (Stall.description s) (Stall.location s).

Definition scanStall (e : Env) (req : StallRequest Token)
  : DB Token -> DB Token * Reply StallScanData :=
  handler
    match stall_qr_token req with
    | None => ret (errorResponse "Stall QR code is required" 400)
    | Some token =>
    if stall_invalid (verifyStallQRToken token)
    then ret (errorResponse "Invalid stall QR code" 400)
    else
    let* stall := Stall_findByQRToken token in
    match stall with
    | None => ret (errorResponse "Stall not found" 404)
    | Some stall =>
    let* student := Student_findById (stall_user_id req) in
    match student with
    | None =>
        ret (errorResponse "Student not found. Please login again." 404)
    | Some student =>
    if negb (Student.is_inside_event student)
    then ret (errorResponse
                "You must be checked in at the event to scan stalls" 403)
    else
    let* existingFeedback :=
      Feedback_findByStudentAndStall (stall_user_id req) (Stall.id stall) in
    ret (successResponse
           (mkStallScanData (summary_of_stall stall)
              (bool_decide (is_Some existingFeedback))
              ((fun f => mkExistingFeedback (Feedback.rating f)
                           (Feedback.comment f) (Feedback.submitted_at f))
                 <$> existingFeedback))
           "Stall scanned successfully" 200)
    end end end.

(** [comment || null] *)
Definition comment_or_null (c : option string) : option string :=
  match c with
  | Some "" => None
  | c => c
  end.

Definition submitFeedback (e : Env) (req : FeedbackRequest)
  : DB Token -> DB Token * Reply FeedbackData :=
  handler
    match req_stall_id req, req_rating req with
    | None, _ | Some "", _ | _, None | _, Some 0 =>
        ret (errorResponse "Stall ID and rating are required" 400)
    | Some stall_id, Some rating =>
    if bool_decide (rating < 1) || bool_decide (rating > 5)
    then ret (errorResponse "Rating must be between 1 and 5" 400)
    else
    let* student := Student_findById (feedback_user_id req) in
    match student with
    | None =>
        ret (errorResponse "Student not found. Please login again." 404)
    | Some student =>
    if negb (Student.is_inside_event student)
    then ret (errorResponse
                "You must be checked in at the event to submit feedback" 403)
    else
    let* feedbackCount := Feedback_countByStudent (feedback_user_id req) in
    if bool_decide (feedbackCount >= 200)
    then ret (errorResponse
                "You have reached the maximum feedback limit (200)" 403)
    else
    let* stall := Stall_findById stall_id in
    match stall with
    | None => ret (errorResponse "Stall not found" 404)
    | Some stall =>
    let* existingFeedback :=
      Feedback_findByStudentAndStall (feedback_user_id req) stall_id in
    match existingFeedback with
    | Some _ =>
        ret (errorResponse
               "You have already submitted feedback for this stall" 409)
    | None =>
    let* feedback :=
      Feedback_create e (feedback_user_id req) stall_id rating
        (comment_or_null (req_comment req)) in
    run Student_incrementFeedbackCount (feedback_user_id req) in
    run modify (set_stalls (fmap (bump_stall stall_id))) in
    ret (successResponse
           (mkFeedbackData
              (mkFeedbackSummary (Feedback.id feedback)
                 (Stall.stall_name stall) (Stall.stall_number stall)
                 (Feedback.rating feedback) (Feedback.comment feedback)
                 (Feedback.submitted_at feedback))
              (feedbackCount + 1) (200 - (feedbackCount + 1)))
           "Feedback submitted successfully" 201)
    end end end end.
End StallHandlers.

(** ** The token codec *)

Module QRCodeService.

(** Modelled from the spec: [services/qrCode.js] is not among the sources.
    A time window lasts 30 seconds and the verifier accepts 2 windows on
    either side of its own (sections 3 and 4.1, scenario of section 8). *)
Definition ROTATION_INTERVAL_SECONDS : Z := 30.
Definition GRACE_PERIOD_WINDOWS : Z := 2.

(** Modelled from the spec: [time_window_index = floor(now / window
    duration)], with [now] in milliseconds. *)
Definition window_index (now : Z) : Z :=
  now / (ROTATION_INTERVAL_SECONDS * 1000).

Inductive VerifyError := InvalidFormat | InvalidOrExpired.

(** Modelled from the spec: what a scanning station can present.  A
    rotating token carries the attendee's external id, its window index
    and a signature; a static token carries an id and a signature; every
    other string does not decode. *)
Inductive Token (Sig : Type) :=
| Malformed (raw : string)
| Rotating (registration_no : string) (window : Z) (sig : Sig)
| StaticStudent (registration_no : string) (sig : Sig)
| StaticStall (stall_number : string) (sig : Sig).
Arguments Malformed {Sig}.
Arguments Rotating {Sig}.
Arguments StaticStudent {Sig}.
Arguments StaticStall {Sig}.

Section Codec.
Context {Sig : Type} `{EqDecision Sig}.

(** The signature over an attendee id and a window index, and the
    signature over the id of a fixed asset. *)
Variable sign : string -> Z -> Sig.
Variable sign_static : string -> Sig.

(** Modelled from the spec: [Issue(attendee) -> displayToken] signs the
    attendee id and the current window index. *)
Definition generateRotatingStudentToken (registration_no : string)
  (now : Z) : Token Sig :=
  Rotating registration_no (window_index now)
    (sign registration_no (window_index now)).

(** The windows a verifier tries at [now]. *)
Definition candidate_windows (now : Z) : list Z :=
  seqZ (window_index now - GRACE_PERIOD_WINDOWS)
       (2 * GRACE_PERIOD_WINDOWS + 1).

(** Modelled from the spec: [Verify(presentedToken, now)] recomputes the
    window index for [now] and checks the signature against that index
    and the adjacent windows of the grace period; a mismatch on all of
    them is [InvalidOrExpired], a token that does not decode is
    [InvalidFormat]. *)
Definition verifyRotating (token : Token Sig) (now : Z)
  : VerifyError + string :=
  match token with
  | Rotating registration_no _ sig =>
      if existsb (fun w => bool_decide (sign registration_no w = sig))
                 (candidate_windows now)
      then inr registration_no
      else inl InvalidOrExpired
  | _ => inl InvalidFormat
  end.

(** Modelled from the spec: the static codec, [Issue(assetId) -> token]
    and [Verify(token)], which checks the signature only. *)
Definition generateStallQRToken (stall_number : string) : Token Sig :=
  StaticStall stall_number (sign_static stall_number).

Definition verifyStall (token : Token Sig) : option string :=
  match token with
  | StaticStall stall_number sig =>
      if bool_decide (sign_static stall_number = sig)
      then Some stall_number else None
  | _ => None
  end.

(** Modelled from the spec: the two student verifiers in the shape the scan
    handler reads them ([valid], [isStatic], [registration_no]).  A token
    that is not a rotating one is flagged [isStatic], which sends the
    handler to the legacy static verifier (section 4.4, step 1). *)
Definition verifyRotatingStudentToken (now : Z) (token : Token Sig)
  : Decoded :=
  match verifyRotating token now with
  | inr registration_no => mkDecoded true false registration_no
  | inl InvalidFormat => mkDecoded false true ""
  | inl InvalidOrExpired => mkDecoded false false ""
  end.

Definition verifyStudentQRToken (token : Token Sig) : option Decoded :=
  match token with
  | StaticStudent registration_no sig =>
      if bool_decide (sign_static registration_no = sig)
      then Some (mkDecoded true true registration_no)
      else None
  | _ => None
  end.

(** The verifier in the shape the student controller uses. *)
Definition verifyStallQRToken (token : Token Sig) : option StallDecoded :=
  match verifyStall token with
  | Some stall_number => Some (mkStallDecoded true stall_number)
  | None => Some (mkStallDecoded false "")
  end.
End Codec.

Global Instance Token_eq_dec {Sig} `{EqDecision Sig} : EqDecision (Token Sig).
Proof. solve_decision. Defined.
End QRCodeService.

(** ** The outcome of a scan that meets no fault

    The database and the duration that steps 4 to 9 of the handler produce
    for the row [s] it read, written as one expression. *)

Section Outcome.
Context {Token : Type} `{EqDecision Token}.

Definition duration_of (e : Env) (s : Student.t) : Z :=
  match Student.is_inside_event s, Student.last_checkin_at s with
  | true, Some checkInTime => (now e - checkInTime) / (1000 * 60)
  | _, _ => 0
  end.

Definition ledger_row (db : DB Token) (req : ScanRequest Token)
  (s : Student.t) (ty : scan_type) (duration : option Z) : CheckInOut.t :=
  CheckInOut.mk (Z.of_nat (length (check_in_outs db))) (Student.id s)
    (user_id req) ty (Student.total_scan_count s + 1) duration.

Definition toggled (e : Env) (s : Student.t) (db : DB Token) : DB Token :=
  set_students (update_where (Student.id s) (toggle (now e))) db.

Definition recorded (e : Env) (req : ScanRequest Token) (s : Student.t)
  (db : DB Token) : DB Token :=
  let db1 := toggled e s db in
  let db2 :=
    match Student.is_inside_event s, Student.last_checkin_at s with
    | false, _ =>
        set_check_in_outs
          (fun l => (l ++ [ledger_row db req s CHECKIN None])%list) db1
    | true, Some _ =>
        set_students
          (update_where (Student.id s) (add_duration (duration_of e s)))
          (set_check_in_outs
             (fun l => (l ++ [ledger_row db req s CHECKOUT
                                (Some (duration_of e s))])%list) db1)
    | true, None => db1
    end in
  set_volunteers (alter bump_scans (user_id req)) db2.
End Outcome.

(** ** Reading a reply *)

Definition reply_action (r : Reply ScanData) : option Action :=
  match r with
  | Sent _ true _ (Some d) => Some (action d)
  | _ => None
  end.

Definition reply_duration (r : Reply ScanData) : option Z :=
  match r with
  | Sent _ true _ (Some d) => duration_minutes (student d)
  | _ => None
  end.

(** The failure of step 1 for a token that was presented. *)
Definition verification_fails (decoded : option Decoded) : bool :=
  match decoded with
  | None => true
  | Some d => negb (valid d)
  end.

(** ** A sample event *)

Module Sample.

(** A signature that repeats what it signs. *)
Definition Sig : Type := string * Z.
Definition sign (registration_no : string) (window : Z) : Sig :=
  (registration_no, window).
Definition sign_static (asset : string) : Sig := (asset, -1).

Definition Token : Type := QRCodeService.Token Sig.

Definition verifyRotatingStudentToken : Z -> Token -> Decoded :=
  QRCodeService.verifyRotatingStudentToken sign.
Definition verifyStudentQRToken : Token -> option Decoded :=
  QRCodeService.verifyStudentQRToken sign_static.
Definition verifyStallQRToken : Token -> option StallDecoded :=
  QRCodeService.verifyStallQRToken sign_static.

(** Outside, never scanned. *)
Definition asha : Student.t :=
  Student.mk "s-1" "Asha" "REG001" "SOET" false None None 0 0 0.
(** Inside, with no entry time on record. *)
Definition binod : Student.t :=
  Student.mk "s-2" "Binod" "REG002" "SOMC" true None None 1 0 0.
(** Inside, entered two minutes after the epoch. *)
Definition chitra : Student.t :=
  Student.mk "s-3" "Chitra" "REG003" "SOET" true (Some 120000) None 1 0 0.

Definition gatekeeper : Volunteer.t :=
  Volunteer.mk "v-1" "gate@sgtu.ac.in" "Gate Keeper" "Main Gate" true 0.
Definition suspended : Volunteer.t :=
  Volunteer.mk "v-2" "old@sgtu.ac.in" "Former Helper" "Main Gate" false 7.

Definition robotics : Stall.t Token :=
  Stall.mk "st-1" "S-01" "Robotics" "SOET" "Line followers" "Hall A"
    (Some (QRCodeService.generateStallQRToken sign_static "S-01")) 0.

Definition db : DB Token :=
  mkDB [asha; binod; chitra]
       (<["v-1" := gatekeeper]> (<["v-2" := suspended]> ∅))
       [] [robotics] [].

(** Ten o'clock and a quarter to eleven and thirty seconds, in
    milliseconds. *)
Definition t_1000 : Z := 36000000.
Definition t_1045 : Z := 38730000.

Definition at_time (t : Z) : Env := mkEnv t no_faults.

(** A scan of the token that [reg] displays at [t], by operator [uid]. *)
Definition scan_of (uid reg : string) (t : Z) : ScanRequest Token :=
  mkScanRequest uid (uid +:+ "@sgtu.ac.in")
    (Some (QRCodeService.generateRotatingStudentToken sign reg t)).

Definition scan (e : Env) (req : ScanRequest Token)
  : DB Token -> DB Token * Reply ScanData :=
  scanStudentQR verifyRotatingStudentToken verifyStudentQRToken e req.

Definition replay (evs : list (ScanEvent Token)) :=
  run_scans verifyRotatingStudentToken verifyStudentQRToken evs.

Definition event (uid reg : string) (t : Z) : ScanEvent Token :=
  mkScanEvent (at_time t) (scan_of uid reg t).

(** Asha enters at ten and leaves at a quarter to eleven; her last code is
    scanned once more a second later, Chitra leaves in between, and a
    suspended operator and an unreadable code are turned away. *)
Definition morning : list (ScanEvent Token) :=
  [ event "v-1" "REG001" t_1000;
    event "v-2" "REG001" (t_1000 + 5000);
    event "v-1" "REG003" (t_1000 + 60000);
    mkScanEvent (at_time (t_1000 + 90000))
      (mkScanRequest "v-1" "gate@sgtu.ac.in"
         (Some (QRCodeService.Malformed "not a code")));
    event "v-1" "REG001" t_1045;
    mkScanEvent (at_time (t_1045 + 1000)) (scan_of "v-1" "REG001" t_1045) ].

(** The server clock is set back two minutes between an entry and the exit
    that follows it. *)
Definition clock_set_back : list (ScanEvent Token) :=
  [ event "v-1" "REG001" t_1000;
    event "v-1" "REG001" (t_1000 - 120000) ].

(** The ledger insert and the counter update are refused. *)
Definition ledger_down (t : Z) : Env :=
  mkEnv t (mkFaults false true false true).

(** A code whose signature is for a window that is long gone. *)
Definition stale_code : Token :=
  QRCodeService.generateRotatingStudentToken sign "REG001" 0.

Definition scanStall (e : Env) (req : StallRequest Token)
  : DB Token -> DB Token * Reply StallScanData :=
  scanStall verifyStallQRToken e req.

(** The update of the operator counter is refused. *)
Definition counter_down (t : Z) : Env :=
  mkEnv t (mkFaults false false false true).

(** The update of the students table is refused. *)
Definition students_down (t : Z) : Env :=
  mkEnv t (mkFaults true false false false).

(** Asha is scanned at ten while the operator counter cannot be written,
    and once more at a quarter to eleven. *)
Definition interrupted : list (ScanEvent Token) :=
  [ mkScanEvent (counter_down t_1000) (scan_of "v-1" "REG001" t_1000);
    event "v-1" "REG001" t_1045 ].

(** The morning, with one more scan of Asha in the middle of it that the
    students table refuses. *)
Definition morning_with_refusal : list (ScanEvent Token) :=
  [ event "v-1" "REG001" t_1000;
    mkScanEvent (students_down (t_1000 + 30000))
      (scan_of "v-1" "REG001" (t_1000 + 30000));
    event "v-1" "REG003" (t_1000 + 60000);
    event "v-1" "REG001" t_1045;
    mkScanEvent (at_time (t_1045 + 1000)) (scan_of "v-1" "REG001" t_1045) ].
End Sample.

(** ** Counting the scans of an operator *)

(** An accepted scan whose [scan_details] name the operator [u]. *)
Definition scanned_by (u : string) (reply : Reply ScanData) : bool :=
  match reply with
  | Sent _ true _ (Some d) => bool_decide (volunteer_id (scan_details d) = u)
  | _ => false
  end.

Definition scans_by (u : string) (replies : list (Reply ScanData)) : Z :=
  Z.of_nat (length (List.filter (scanned_by u) replies)).

(** ** The outcome of an accepted feedback

    The database that [submitFeedback] leaves behind when it answers 201,
    written as one expression. *)

Section FeedbackOutcome.
Context {Token : Type} `{EqDecision Token}.

Definition feedback_row (e : Env) (db : DB Token) (student_id stall_id : string)
  (rating : Z) (comment : option string) : Feedback.t :=
  Feedback.mk (Z.of_nat (length (feedbacks db))) student_id stall_id rating
    (comment_or_null comment) (now e).

Definition feedback_count_of (student_id : string) (db : DB Token) : Z :=
  Z.of_nat (length (filter (fun f => Feedback.student_id f = student_id)
                      (feedbacks db))).

Definition submitted (e : Env) (db : DB Token) (student_id stall_id : string)
  (rating : Z) (comment : option string) : DB Token :=
  set_stalls (fmap (bump_stall stall_id))
    (set_students (update_where student_id bump_feedback)
       (set_feedbacks
          (fun l => (l ++ [feedback_row e db student_id stall_id rating
                             comment])%list) db)).
End FeedbackOutcome.

(** ** The other handlers that read a code *)

(** The [stall] object in the reply of the volunteer's stall scan. *)
Record StallCard := mkStallCard {
  card_id : string;
  card_stall_name : string;
  card_stall_number : string;
  card_school_name : string;
  card_description : string
}.

Record RotationInfo := mkRotationInfo {
  expires_in_seconds : Z;
  rotation_interval : Z;
  grace_period_seconds : Z
}.

Record QRCodeData (Token : Type) := mkQRCodeData {
  qr_code : string;
  served_token : Token;
  served_registration_no : string;
  rotation_info : RotationInfo
}.
Arguments mkQRCodeData {Token}.
Arguments qr_code {Token}.
Arguments served_token {Token}.
Arguments served_registration_no {Token}.
Arguments rotation_info {Token}.

Record StallQRData (Token : Type) := mkStallQRData {
  stall_qr_code : string;
  stall_token : Token;
  stall_qr_number : string;
  stall_qr_name : string
}.
Arguments mkStallQRData {Token}.
Arguments stall_qr_code {Token}.
Arguments stall_token {Token}.
Arguments stall_qr_number {Token}.
Arguments stall_qr_name {Token}.

Section CodeHandlers.
Context {Token : Type} `{EqDecision Token}.

(** The parts of [QRCodeService] these handlers call, and the message that
    [successResponse] sends when the handler gives none. *)
Variable verifyStallQRToken : Token -> option StallDecoded.
Variable generateRotatingStudentToken : Student.t -> Z -> Token.
Variable generateRotatingQRCodeImage : Student.t -> Z -> string.
Variable generateQRCodeImage : Token -> string.
Variable getSecondsUntilRotation : Z -> Z.
Variable defaultMessage : string.

(** [scanStallQR] of the volunteer controller: the result of the verifier is
    only tested for [null]. *)
Definition scanStallQR (req : ScanRequest Token)
  : DB Token -> DB Token * Reply StallCard :=
  handler
    match qr_code_token req with
    | None => ret (errorResponse "QR code token is required" 400)
    | Some token =>
    match verifyStallQRToken token with
    | None => ret (errorResponse "Invalid QR code" 400)
    | Some decoded =>
    let* stall := Stall_findByQRToken token in
    match stall with
    | None => ret (errorResponse "Stall not found" 404)
    | Some stall =>
        ret (successResponse
               (mkStallCard (Stall.id stall) (Stall.stall_name stall)
                  (Stall.stall_number stall) (Stall.school_name stall)
                  (Stall.description stall))
               "QR code verified successfully" 200)
    end end end.

(** [getQRCode] of the student controller. *)
Definition getQRCode (e : Env) (user_id : string)
  : DB Token -> DB Token * Reply (QRCodeData Token) :=
  handler
    (let* student := Student_findById user_id in
     match student with
     | None => ret (errorResponse "Student not found" 404)
     | Some student =>
         let token := generateRotatingStudentToken student (now e) in
         let qrCodeImage := generateRotatingQRCodeImage student (now e) in
         let rotationInfo :=
           mkRotationInfo (getSecondsUntilRotation (now e))
             QRCodeService.ROTATION_INTERVAL_SECONDS
             (QRCodeService.GRACE_PERIOD_WINDOWS
              * QRCodeService.ROTATION_INTERVAL_SECONDS) in
         ret (successResponse
                (mkQRCodeData qrCodeImage token
                   (Student.registration_no student) rotationInfo)
                defaultMessage 200)
     end).

(** [getStallQRCode] of the stall controller. *)
Definition getStallQRCode (id : string)
  : DB Token -> DB Token * Reply (StallQRData Token) :=
  handler
    (let* stall := Stall_findById id in
     match stall with
     | None => ret (errorResponse "Stall not found" 404)
     | Some stall =>
     match Stall.qr_code_token stall with
     | None => ret (errorResponse "QR code not generated for this stall" 404)
     | Some token =>
         let qrCodeImage := generateQRCodeImage token in
         ret (successResponse
                (mkStallQRData qrCodeImage token (Stall.stall_number stall)
                   (Stall.stall_name stall))
                defaultMessage 200)
     end end).
End CodeHandlers.

(** ** School rankings

    The columns of the students, stalls and rankings tables that
    [Stall.incrementRankVote] and [submitSchoolRanking] read and write.  A
    rank is a JSON number.  Database calls are taken to succeed, so that the
    [BEGIN]/[COMMIT] pair of [submitSchoolRanking] brackets its writes and
    its [ROLLBACK] branch is not reached. *)

Module RankStudent.
Record t := mk {
  id : string;
  school_id : option string;
  has_completed_ranking : bool;
  selected_category : option string
}.
End RankStudent.

Module RankStall.
Record t := mk {
  id : string;
  stall_name : string;
  stall_number : string;
  school_id : option string;
  rank_1_votes : Z;
  rank_2_votes : Z;
  rank_3_votes : Z;
  weighted_score : Z
}.
End RankStall.

Module Ranking.
Record t := mk {
  student_id : string;
  stall_id : string;
  rank : Z
}.
End Ranking.

Record RankingDB := mkRankingDB {
  rk_students : list RankStudent.t;
  rk_stalls : list RankStall.t;
  rk_rankings : list Ranking.t
}.

Record RankingEntry := mkRankingEntry {
  entry_stall_id : string;
  entry_rank : Z
}.

Record RankedStall := mkRankedStall {
  ranked_rank : Z;
  ranked_stall_name : option string;
  ranked_stall_number : option string
}.

Record RankingData := mkRankingData {
  ranking_message : string;
  submitted_rankings : list RankedStall;
  ranking_note : string
}.

(** [Array.prototype.sort] and an [ORDER BY]: insertion into a sorted list. *)
Fixpoint insert_sorted {A} (le : A -> A -> bool) (x : A) (l : list A)
  : list A :=
  match l with
  | [] => [x]
  | y :: rest => if le x y then x :: l else y :: insert_sorted le x rest
  end.

Definition sort_by {A} (le : A -> A -> bool) (l : list A) : list A :=
  foldr (insert_sorted le) [] l.

(** [ranks.sort()] without a comparator orders the numbers by their decimal
    text. *)
Definition js_sort (ranks : list Z) : list Z :=
  sort_by (fun a b => String.leb (pretty a) (pretty b)) ranks.

(** [array.join(separator)] *)
Fixpoint join (separator : string) (l : list string) : string :=
  match l with
  | [] => ""
  | [x] => x
  | x :: rest => x +:+ separator +:+ join separator rest
  end.

(** [Stall.incrementRankVote]: the column [rank_<rank>_votes] exists for the
    ranks 1, 2 and 3 only; the new score is computed from the votes of the
    row before the update, with the new vote added in. *)
Definition rank_vote (rank : Z) (st : RankStall.t) : RankStall.t :=
  let one k := if bool_decide (rank = k) then 1 else 0 in
  RankStall.mk (RankStall.id st) (RankStall.stall_name st)
    (RankStall.stall_number st) (RankStall.school_id st)
    (RankStall.rank_1_votes st + one 1)
    (RankStall.rank_2_votes st + one 2)
    (RankStall.rank_3_votes st + one 3)
    ((RankStall.rank_1_votes st + one 1) * 3 +
     (RankStall.rank_2_votes st + one 2) * 2 +
     (RankStall.rank_3_votes st + one 3) * 1).

Definition rank_stall_has_id (i : string) (st : RankStall.t) : bool :=
  bool_decide (RankStall.id st = i).

Definition incrementRankVote (id : string) (rank : Z) (table : list RankStall.t)
  : list RankStall.t * result (option RankStall.t) :=
  if bool_decide (rank = 1) || bool_decide (rank = 2) || bool_decide (rank = 3)
  then
    let table' :=
      (fun st => if rank_stall_has_id id st then rank_vote rank st else st)
        <$> table in
    (table', Ok (find (rank_stall_has_id id) table'))
  else (table, Throw "column does not exist").

(** The vote update in the loop of [submitSchoolRanking]: the column is
    picked by comparing the rank with 1 and 2, and the score is computed
    from the votes of the row before the update. *)
Definition ranking_vote (rank : Z) (st : RankStall.t) : RankStall.t :=
  let score :=
    RankStall.rank_1_votes st * 5 + RankStall.rank_2_votes st * 3 +
    RankStall.rank_3_votes st * 1 in
  if bool_decide (rank = 1) then
    RankStall.mk (RankStall.id st) (RankStall.stall_name st)
      (RankStall.stall_number st) (RankStall.school_id st)
      (RankStall.rank_1_votes st + 1) (RankStall.rank_2_votes st)
      (RankStall.rank_3_votes st) score
  else if bool_decide (rank = 2) then
    RankStall.mk (RankStall.id st) (RankStall.stall_name st)
      (RankStall.stall_number st) (RankStall.school_id st)
      (RankStall.rank_1_votes st) (RankStall.rank_2_votes st + 1)
      (RankStall.rank_3_votes st) score
  else
    RankStall.mk (RankStall.id st) (RankStall.stall_name st)
      (RankStall.stall_number st) (RankStall.school_id st)
      (RankStall.rank_1_votes st) (RankStall.rank_2_votes st)
      (RankStall.rank_3_votes st + 1) score.

Definition cast_vote (entry : RankingEntry) (table : list RankStall.t)
  : list RankStall.t :=
  (fun st => if rank_stall_has_id (entry_stall_id entry) st
             then ranking_vote (entry_rank entry) st else st) <$> table.

(** The three checks of the request that come before any query. *)
Definition ranking_format_error (rankings : list RankingEntry)
  : option (Reply RankingData) :=
  if negb (bool_decide (length rankings = 3%nat)) then
    Some (errorResponse "Must provide exactly 3 stall rankings" 400)
  else if negb (bool_decide
                  (join "," (pretty <$> js_sort (entry_rank <$> rankings))
                   = "1,2,3")) then
    Some (errorResponse
            "Rankings must be exactly 1, 2, and 3 (no duplicates)" 400)
  else if negb (bool_decide
                  (length (remove_dups (entry_stall_id <$> rankings))
                   = 3%nat)) then
    Some (errorResponse "Must rank 3 different stalls" 400)
  else None.

Definition mark_ranked (i : string) (s : RankStudent.t) : RankStudent.t :=
  if bool_decide (RankStudent.id s = i) then
    RankStudent.mk (RankStudent.id s) (RankStudent.school_id s) true
      (Some "CATEGORY_2")
  else s.

(** The rankings of a student joined with the stalls, by rank. *)
Definition ranked_stalls (student_id : string) (db : RankingDB)
  : list RankedStall :=
  sort_by (fun a b => bool_decide (ranked_rank a <= ranked_rank b))
    (flat_map
       (fun r =>
          match List.filter (rank_stall_has_id (Ranking.stall_id r))
                  (rk_stalls db) with
          | [] => [mkRankedStall (Ranking.rank r) None None]
          | matches =>
              (fun st => mkRankedStall (Ranking.rank r)
                           (Some (RankStall.stall_name st))
                           (Some (RankStall.stall_number st))) <$> matches
          end)
       (List.filter
          (fun r => bool_decide (Ranking.student_id r = student_id))
          (rk_rankings db))).

Section SubmitSchoolRanking.
(** Whether a text is a UUID for the cast [$1::uuid[]], and the emoji that
    opens the message of the reply. *)
Variable is_uuid : string -> bool.
Variable celebration : string.

Definition submitSchoolRanking (user_id : string)
  (rankings : list RankingEntry) (db : RankingDB)
  : RankingDB * Reply RankingData :=
  match ranking_format_error rankings with
  | Some reply => (db, reply)
  | None =>
  let stallIds := entry_stall_id <$> rankings in
  match find (fun s => bool_decide (RankStudent.id s = user_id))
          (rk_students db) with
  | None => (db, errorResponse "Student not found" 404)
  | Some student =>
  if RankStudent.has_completed_ranking student then
    (db, errorResponse
           "You have already submitted your rankings. This is ONE-TIME only."
           409)
  else if negb (forallb is_uuid stallIds) then
    (db, Next "invalid input syntax for type uuid")
  else
  let stallsToRank :=
    List.filter (fun st => bool_decide (RankStall.id st ∈ stallIds))
      (rk_stalls db) in
  if negb (bool_decide (length stallsToRank = 3%nat)) then
    (db, errorResponse "One or more stalls not found" 404)
  else
  let invalidStalls :=
    List.filter
      (fun st => negb (bool_decide
                         (RankStall.school_id st
                          = RankStudent.school_id student)))
      stallsToRank in
  if bool_decide (0 < length invalidStalls)%nat then
    (db, errorResponse
           ("You can only rank stalls from YOUR school. Invalid: " +:+
            join ", " (RankStall.stall_name <$> invalidStalls)) 403)
  else
  let rankingData :=
    (fun r => Ranking.mk user_id (entry_stall_id r) (entry_rank r))
      <$> rankings in
  let db' :=
    mkRankingDB (mark_ranked user_id <$> rk_students db)
      (foldl (fun table entry => cast_vote entry table) (rk_stalls db)
         rankings)
      (rk_rankings db ++ rankingData) in
  (db',
   successResponse
     (mkRankingData (celebration +:+ " Rankings submitted successfully!")
        (ranked_stalls user_id db')
        "Your rankings are recorded and cannot be changed.")
     "School rankings submitted" 201)
  end end.
End SubmitSchoolRanking.

(** * Properties *)

(** ** Lookups after an update *)

Lemma find_map_stable {A} (p : A -> bool) (g : A -> A) (l : list A) :
  (forall x, p (g x) = p x) ->
  find p (g <$> l) = g <$> find p l.
Proof.
  intros Hp. induction l as [|x l IH]; [reflexivity|].
  rewrite fmap_cons. cbn [find]. rewrite Hp.
  destruct (p x); [reflexivity|exact IH].
Qed.

Lemma find_some_elem {A} (p : A -> bool) (l : list A) (x : A) :
  find p l = Some x -> x ∈ l /\ p x = true.
Proof.
  intros Hf. apply find_some in Hf as [Hin Hp].
  split; [by apply list_elem_of_In|exact Hp].
Qed.

Lemma has_id_true i s : has_id i s = true <-> Student.id s = i.
Proof. unfold has_id. by rewrite bool_decide_eq_true. Qed.

Lemma has_registration_no_true r s :
  has_registration_no r s = true <-> Student.registration_no s = r.
Proof. unfold has_registration_no. by rewrite bool_decide_eq_true. Qed.

(** Two rows of a table with a primary key that share their key are the
    same row. *)
Lemma primary_key_inj (l : list Student.t) (x y : Student.t) :
  NoDup (Student.id <$> l) -> x ∈ l -> y ∈ l ->
  Student.id x = Student.id y -> x = y.
Proof.
  induction l as [|z l IH]; intros Hnd Hx Hy Hid.
  - by apply elem_of_nil in Hx.
  - rewrite fmap_cons in Hnd. apply NoDup_cons in Hnd as [Hz Hnd].
    apply elem_of_cons in Hx as [->|Hx]; apply elem_of_cons in Hy as [->|Hy].
    + reflexivity.
    + exfalso. apply Hz. rewrite Hid. by apply list_elem_of_fmap_2.
    + exfalso. apply Hz. rewrite <- Hid. by apply list_elem_of_fmap_2.
    + by apply IH.
Qed.

Lemma update_where_ids i f (l : list Student.t) :
  (forall s, Student.id (f s) = Student.id s) ->
  Student.id <$> update_where i f l = Student.id <$> l.
Proof.
  intros Hf. unfold update_where. induction l as [|x l IH]; [done|].
  rewrite !fmap_cons, IH. f_equal.
  destruct (has_id i x); [apply Hf|done].
Qed.

Lemma find_id_update_where i j f (l : list Student.t) :
  (forall s, Student.id (f s) = Student.id s) ->
  find (has_id j) (update_where i f l)
  = (fun s => if has_id i s then f s else s) <$> find (has_id j) l.
Proof.
  intros Hf. unfold update_where. apply find_map_stable.
  intros x. unfold has_id at 1 3. destruct (has_id i x); [by rewrite Hf|done].
Qed.

Lemma find_reg_update_where i r f (l : list Student.t) :
  (forall s, Student.registration_no (f s) = Student.registration_no s) ->
  find (has_registration_no r) (update_where i f l)
  = (fun s => if has_id i s then f s else s)
      <$> find (has_registration_no r) l.
Proof.
  intros Hf. unfold update_where. apply find_map_stable.
  intros x. unfold has_registration_no.
  destruct (has_id i x); [by rewrite Hf|done].
Qed.

Lemma toggle_id t s : Student.id (toggle t s) = Student.id s.
Proof. unfold toggle. by destruct (Student.is_inside_event s). Qed.

Lemma toggle_registration_no t s :
  Student.registration_no (toggle t s) = Student.registration_no s.
Proof. unfold toggle. by destruct (Student.is_inside_event s). Qed.

Lemma toggle_flips t s :
  Student.is_inside_event (toggle t s) = negb (Student.is_inside_event s).
Proof. unfold toggle. by destruct (Student.is_inside_event s). Qed.

(** ** The scan handler, step by step *)

Section ScanFacts.
Context {Token : Type} `{EqDecision Token}.
Variable vr : Z -> Token -> Decoded.
Variable vs : Token -> option Decoded.

Lemma scan_gate e req (db : DB Token) :
  scanStudentQR vr vs e req db
  = match gate vr vs e req db with
    | inl r => (db, r)
    | inr (_, s) => handler (toggle_and_record e req s) db
    end.
Proof.
  unfold scanStudentQR, gate.
  destruct (qr_code_token req) as [tok|]; [|reflexivity].
  destruct (verify_token vr vs e tok) as [d|]; [|reflexivity].
  destruct (valid d); [|reflexivity]. cbn [negb].
  unfold handler, bind, Student_findByRegistrationNo, Volunteer_findById, get, ret.
  cbn.
  destruct (find _ (students db)) as [s|]; [|reflexivity].
  destruct (inactive _); reflexivity.
Qed.

Lemma toggle_and_record_no_faults e req s (db : DB Token) :
  faults e = no_faults ->
  find (has_id (Student.id s)) (students db) = Some s ->
  handler (toggle_and_record e req s) db
  = (recorded e req s db,
     scan_reply e req s (toggle (now e) s)
       (action_for (Student.is_inside_event s)) (duration_of e s)).
Proof.
  intros Hf Hs.
  unfold handler, toggle_and_record, Student_processCheckInOut,
    CheckInOut_create, Student_updateActiveDuration,
    increment_scans_performed, recorded, duration_of, toggled, ledger_row.
  rewrite Hf. cbn -[scan_reply Z.div Z.mul].
  unfold bind at 1. cbn -[scan_reply Z.div Z.mul].
  rewrite find_id_update_where, Hs by apply toggle_id.
  cbn -[scan_reply Z.div Z.mul].
  rewrite (proj2 (has_id_true _ _) eq_refl).
  destruct (Student.is_inside_event s) eqn:Hin;
    [destruct (Student.last_checkin_at s) eqn:Hc|];
    unfold toggle; rewrite Hin; reflexivity.
Qed.

(** Whatever the later writes do, the toggle stays. *)
Lemma toggle_and_record_flips e req s (db : DB Token) :
  toggle_fails (faults e) = false ->
  s ∈ students db ->
  presence_of_id (Student.id s) (fst (handler (toggle_and_record e req s) db))
  = negb <$> presence_of_id (Student.id s) db.
Proof.
  intros Hf Hs.
  assert (exists s0, find (has_id (Student.id s)) (students db) = Some s0)
    as [s0 Hs0].
  { destruct (find (has_id (Student.id s)) (students db)) as [s0|] eqn:E;
      [by exists s0|].
    apply list_elem_of_In in Hs.
    eapply find_none in E; [|exact Hs].
    by rewrite (proj2 (has_id_true _ _) eq_refl) in E. }
  pose proof (find_some_elem _ _ _ Hs0) as [_ Hid0].
  unfold presence_of_id, handler, toggle_and_record, Student_processCheckInOut,
    CheckInOut_create, Student_updateActiveDuration,
    increment_scans_performed.
  rewrite Hf. cbn -[scan_reply Z.div Z.mul].
  unfold bind at 1. cbn -[scan_reply Z.div Z.mul].
  rewrite find_id_update_where by apply toggle_id.
  rewrite Hs0. cbn -[scan_reply Z.div Z.mul]. rewrite Hid0.
  destruct (Student.is_inside_event s) eqn:Hin;
    [destruct (Student.last_checkin_at s) eqn:Hc|];
    destruct (ledger_fails (faults e)), (duration_fails (faults e)),
      (counter_fails (faults e));
    cbn -[scan_reply Z.div Z.mul];
    try (rewrite find_map_stable
           by (intros x; unfold has_id at 1 3;
               by destruct (has_id (Student.id s) x)));
    rewrite find_id_update_where, Hs0 by apply toggle_id;
    cbn; rewrite Hid0; cbn;
    try destruct (has_id _ (toggle _ _)); cbn; by rewrite toggle_flips.
Qed.

(** A reply that was sent with success comes from a run in which no write
    failed, so it is the reply, and the database, of the fault-free run. *)
Lemma toggle_and_record_sent e req s (db db' : DB Token) c m d :
  find (has_id (Student.id s)) (students db) = Some s ->
  handler (toggle_and_record e req s) db = (db', Sent c true m d) ->
  db' = recorded e req s db /\
  Sent c true m d
  = scan_reply e req s (toggle (now e) s)
      (action_for (Student.is_inside_event s)) (duration_of e s).
Proof.
  intros Hs.
  unfold handler, toggle_and_record, Student_processCheckInOut,
    CheckInOut_create, Student_updateActiveDuration,
    increment_scans_performed, recorded, duration_of, toggled, ledger_row.
  destruct (toggle_fails (faults e)); [discriminate|].
  cbn -[scan_reply Z.div Z.mul].
  unfold bind at 1. cbn -[scan_reply Z.div Z.mul].
  rewrite find_id_update_where, Hs by apply toggle_id.
  cbn -[scan_reply Z.div Z.mul].
  rewrite (proj2 (has_id_true _ _) eq_refl).
  destruct (Student.is_inside_event s) eqn:Hin;
    [destruct (Student.last_checkin_at s) eqn:Hc|];
    destruct (ledger_fails (faults e)), (duration_fails (faults e)),
      (counter_fails (faults e));
    cbn -[scan_reply Z.div Z.mul]; try discriminate;
    unfold toggle; rewrite Hin; cbn -[scan_reply Z.div Z.mul];
    intros Heq; inversion Heq; subst; split; reflexivity.
Qed.

(** An error reply of the gate is never a success. *)
Lemma gate_reply_not_accepted e req (db : DB Token) reply :
  gate vr vs e req db = inl reply -> accepted reply = false.
Proof.
  unfold gate. intros Hg.
  repeat match type of Hg with
         | context [match ?x with _ => _ end] => destruct x
         end; by inversion Hg.
Qed.

Lemma gate_found e req (db : DB Token) d s :
  gate vr vs e req db = inr (d, s) ->
  find (has_registration_no (registration_no d)) (students db) = Some s /\
  valid d = true /\
  inactive (volunteers db !! user_id req) = false.
Proof.
  unfold gate. intros Hg.
  destruct (qr_code_token req) as [tok|]; [|discriminate].
  destruct (verify_token vr vs e tok) as [d'|]; [|discriminate].
  destruct (valid d') eqn:Hv; [|discriminate]. cbn [negb] in Hg.
  destruct (find _ (students db)) as [s'|] eqn:Hfind; [|discriminate].
  destruct (inactive _) eqn:Hi; [discriminate|].
  by inversion Hg; subst.
Qed.

(** The row found by registration number is the row with its own key. *)
Lemma found_by_key (db : DB Token) r s :
  primary_key db ->
  find (has_registration_no r) (students db) = Some s ->
  find (has_id (Student.id s)) (students db) = Some s.
Proof.
  intros Hpk Hf. apply find_some_elem in Hf as [Hin _].
  destruct (find (has_id (Student.id s)) (students db)) as [s0|] eqn:E.
  - apply find_some_elem in E as [Hin0 Hid0]. apply has_id_true in Hid0.
    f_equal. by apply (primary_key_inj (students db)).
  - apply list_elem_of_In in Hin. eapply find_none in E; [|exact Hin].
    by rewrite (proj2 (has_id_true _ _) eq_refl) in E.
Qed.

Lemma add_duration_inside m s :
  Student.is_inside_event (add_duration m s) = Student.is_inside_event s.
Proof. reflexivity. Qed.

Lemma recorded_students e req s (db : DB Token) :
  students (recorded e req s db)
  = update_where (Student.id s) (toggle (now e)) (students db)
  \/ students (recorded e req s db)
     = update_where (Student.id s) (add_duration (duration_of e s))
         (update_where (Student.id s) (toggle (now e)) (students db)).
Proof.
  unfold recorded, toggled.
  destruct (Student.is_inside_event s);
    [destruct (Student.last_checkin_at s)|]; cbn; auto.
Qed.

Lemma recorded_primary_key e req s (db : DB Token) :
  primary_key db -> primary_key (recorded e req s db).
Proof.
  unfold primary_key. intros Hpk.
  destruct (recorded_students e req s db) as [-> | ->];
    rewrite ?update_where_ids; auto using toggle_id.
Qed.

(** After the recorded scan of the row [s], the presence of every attendee
    is its presence before, flipped for the rows with the key of [s]. *)
Lemma recorded_presence e req s (db : DB Token) r :
  presence r (recorded e req s db)
  = (fun x => if has_id (Student.id s) x
              then negb (Student.is_inside_event x)
              else Student.is_inside_event x)
      <$> find (has_registration_no r) (students db).
Proof.
  unfold presence.
  destruct (recorded_students e req s db) as [-> | ->];
    rewrite !find_reg_update_where by auto using toggle_registration_no;
    destruct (find (has_registration_no r) (students db)) as [x|];
    cbn; try reflexivity; f_equal.
  - destruct (has_id (Student.id s) x); [apply toggle_flips|reflexivity].
  - destruct (has_id (Student.id s) x) eqn:Hx.
    + unfold has_id. rewrite toggle_id. fold (has_id (Student.id s) x).
      rewrite Hx. cbn. apply toggle_flips.
    + by rewrite Hx.
Qed.

Lemma scan_reply_accepted_action e (req : ScanRequest Token) s u a dur r :
  accepted_action r (scan_reply e req s u a dur)
  = if bool_decide (Student.registration_no u = r) then Some a else None.
Proof. by destruct a. Qed.

(** A toggle that the database refuses ends the request with nothing
    changed. *)
Lemma toggle_refused e req s (db : DB Token) :
  toggle_fails (faults e) = true ->
  handler (toggle_and_record e req s) db = (db, Next "students update failed").
Proof.
  intros Hfail.
  unfold handler, toggle_and_record, Student_processCheckInOut.
  by rewrite Hfail.
Qed.

Lemma later_writes_succeed e :
  fails_after_toggle (faults e) = false ->
  toggle_fails (faults e) = false ->
  faults e = no_faults.
Proof.
  unfold fails_after_toggle. destruct (faults e) as [t l d c]. cbn.
  intros Hlater ->. cbn in Hlater.
  by destruct l, d, c.
Qed.

(** One scan in which no write fails after the toggle, seen from the
    attendee [r]. *)
Lemma scan_step e req (db : DB Token) r :
  fails_after_toggle (faults e) = false ->
  primary_key db ->
  primary_key (fst (scanStudentQR vr vs e req db)) /\
  match accepted_action r (snd (scanStudentQR vr vs e req db)) with
  | Some a =>
      exists b, presence r db = Some b /\ a = action_for b /\
                presence r (fst (scanStudentQR vr vs e req db))
                = Some (negb b)
  | None =>
      presence r (fst (scanStudentQR vr vs e req db)) = presence r db
  end.
Proof.
  intros Hf Hpk. rewrite scan_gate.
  destruct (gate vr vs e req db) as [reply|[d s]] eqn:Hg.
  - cbn. split; [exact Hpk|].
    apply gate_reply_not_accepted in Hg.
    destruct reply as [c [|] m dat|]; try discriminate; reflexivity.
  - destruct (toggle_fails (faults e)) eqn:Htoggle.
    { rewrite (toggle_refused e req s db Htoggle). cbn. by split. }
    apply (later_writes_succeed e Hf) in Htoggle. clear Hf.
    rename Htoggle into Hf.
    apply gate_found in Hg as (Hfind & _ & _).
    pose proof (found_by_key _ _ _ Hpk Hfind) as Hkey.
    rewrite (toggle_and_record_no_faults e req s db Hf Hkey). cbn [fst snd].
    split; [by apply recorded_primary_key|].
    rewrite scan_reply_accepted_action, toggle_registration_no.
    rewrite recorded_presence.
    pose proof (find_some_elem _ _ _ Hfind) as [Hin Hreg].
    apply has_registration_no_true in Hreg.
    case_bool_decide as Hr.
    + exists (Student.is_inside_event s).
      assert (r = registration_no d) as -> by congruence.
      unfold presence. rewrite Hfind. cbn.
      by rewrite (proj2 (has_id_true _ _) eq_refl).
    + unfold presence.
      destruct (find (has_registration_no r) (students db)) as [x|] eqn:Hx;
        [|reflexivity].
      cbn. apply find_some_elem in Hx as [Hxin Hxr].
      apply has_registration_no_true in Hxr.
      destruct (has_id (Student.id s) x) eqn:Hid; [|reflexivity].
      apply has_id_true in Hid.
      assert (x = s) by (by apply (primary_key_inj (students db))).
      congruence.
Qed.

(** The actions of a run, for an attendee whose presence before the run is
    [b]: they start with the action for [b] and alternate. *)
Lemma run_alternates evs (db : DB Token) r b :
  Forall (fun ev => fails_after_toggle (faults (ev_env ev)) = false) evs ->
  primary_key db ->
  presence r db = Some b ->
  alternates (action_for b)
    (accepted_actions r (snd (run_scans vr vs evs db))) = true.
Proof.
  intros Hall. revert db b.
  induction Hall as [|ev evs Hev Hall IH]; intros db b Hpk Hb; [reflexivity|].
  cbn [run_scans].
  pose proof (scan_step (ev_env ev) (ev_req ev) db r Hev Hpk) as [Hpk' Hstep].
  destruct (scanStudentQR vr vs (ev_env ev) (ev_req ev) db) as [db1 reply].
  cbn [fst snd] in *.
  specialize (IH db1).
  destruct (run_scans vr vs evs db1) as [db2 replies]. cbn [snd] in *.
  unfold accepted_actions. cbn [omap list_omap].
  fold (accepted_actions r replies).
  destruct (accepted_action r reply) as [a|].
  - destruct Hstep as (b' & Hb' & -> & Hafter).
    assert (b' = b) as -> by congruence.
    cbn [alternates].
    replace (Action_eqb (action_for b) (action_for b)) with true
      by (by destruct b).
    replace (flip (action_for b)) with (action_for (negb b))
      by (by destruct b).
    by apply IH.
  - apply IH; [exact Hpk'|congruence].
Qed.

(** An accepted scan, whatever the environment: the action is the one for
    the presence that the attendee had, and the presence is flipped. *)
Lemma scan_accepted e req (db : DB Token) r a :
  primary_key db ->
  accepted_action r (snd (scanStudentQR vr vs e req db)) = Some a ->
  exists b, presence r db = Some b /\ a = action_for b /\
            presence r (fst (scanStudentQR vr vs e req db)) = Some (negb b).
Proof.
  intros Hpk. rewrite scan_gate.
  destruct (gate vr vs e req db) as [reply|[d s]] eqn:Hg.
  - cbn. apply gate_reply_not_accepted in Hg.
    destruct reply as [c [|] m dat|]; discriminate.
  - apply gate_found in Hg as (Hfind & _ & _).
    pose proof (found_by_key _ _ _ Hpk Hfind) as Hkey.
    destruct (handler (toggle_and_record e req s) db) as [db' reply] eqn:Hrun.
    cbn [fst snd]. intros Hacc.
    destruct reply as [c [|] m dat|]; try discriminate.
    apply (toggle_and_record_sent e req s db db' c m dat Hkey) in Hrun
      as [-> Hreply].
    rewrite Hreply in Hacc.
    rewrite scan_reply_accepted_action, toggle_registration_no in Hacc.
    case_bool_decide as Hr; [|discriminate]. injection Hacc as <-.
    pose proof (find_some_elem _ _ _ Hfind) as [_ Hreg].
    apply has_registration_no_true in Hreg.
    assert (r = registration_no d) as -> by congruence.
    exists (Student.is_inside_event s).
    rewrite recorded_presence. unfold presence. rewrite Hfind. cbn.
    by rewrite (proj2 (has_id_true _ _) eq_refl).
Qed.

(** C1, as the handler has it. In every run of scan requests handled one
    after the other on a students table with a primary key, in which no
    write is refused after a toggle has gone through, the actions of the
    accepted scans of an attendee who is outside before the run alternate
    ENTRY, EXIT, ENTRY, ... starting with ENTRY; and every accepted scan,
    whatever is refused, has the action ENTRY exactly when the attendee was
    outside before it (EXIT otherwise) and leaves the attendee's presence
    flipped.  A scan whose later write is refused is answered with an error
    while its flip stays, so it is not among the accepted scans and the next
    accepted scan has the opposite action. *)
Theorem accepted_scans_alternate evs (db : DB Token) r :
  Forall (fun ev => fails_after_toggle (faults (ev_env ev)) = false) evs ->
  primary_key db ->
  presence r db = Some false ->
  alternates ENTRY (accepted_actions r (snd (run_scans vr vs evs db))) = true
  /\
  forall e req (db0 : DB Token) a,
    primary_key db0 ->
    accepted_action r (snd (scanStudentQR vr vs e req db0)) = Some a ->
    exists b, presence r db0 = Some b /\
              (a = ENTRY <-> b = false) /\ (a = EXIT <-> b = true) /\
              presence r (fst (scanStudentQR vr vs e req db0))
              = Some (negb b).
Proof.
  intros Hall Hpk Hout. split.
  - exact (run_alternates evs db r false Hall Hpk Hout).
  - intros e req db0 a Hpk0 Hacc.
    destruct (scan_accepted e req db0 r a Hpk0 Hacc) as (b & Hb & -> & Hafter).
    exists b. repeat split; try assumption; by destruct b.
Qed.

(** ** Duration of a visit *)

Lemma duration_of_nonneg e s entry :
  Student.is_inside_event s = true ->
  Student.last_checkin_at s = Some entry ->
  duration_of e s = (now e - entry) / 60000 /\
  (0 <= duration_of e s <-> entry <= now e).
Proof.
  intros Hin Hc. unfold duration_of. rewrite Hin, Hc.
  change (1000 * 60) with 60000. split; [reflexivity|]. split.
  - intros Hd. destruct (Z_lt_le_dec (now e - entry) 0) as [Hneg|Hpos]; [|lia].
    assert ((now e - entry) / 60000 < 0) by (apply Z.div_lt_upper_bound; lia).
    lia.
  - intros Hle. apply Z.div_pos; lia.
Qed.

(** C2, as the handler has it. For every accepted EXIT scan the reported
    [duration_minutes] is [floor((exit time - previous entry time) / 60 s)]
    when an entry time is on record, which is non-negative exactly when the
    entry time is not after the exit time (the handler does not clamp), and
    is [0] when no entry time is on record; in that last case the scan is
    still accepted, with status 200, when no database write fails. *)
Theorem exit_duration e req (db : DB Token) :
  primary_key db ->
  (forall c m data,
     snd (scanStudentQR vr vs e req db) = Sent c true m (Some data) ->
     action data = EXIT ->
     exists s,
       find (has_registration_no (summary_registration_no (student data)))
         (students db) = Some s /\
       Student.is_inside_event s = true /\
       match Student.last_checkin_at s with
       | Some entry =>
           duration_minutes (student data) = Some ((now e - entry) / 60000) /\
           (0 <= (now e - entry) / 60000 <-> entry <= now e)
       | None => duration_minutes (student data) = Some 0
       end)
  /\
  (forall d s,
     faults e = no_faults ->
     gate vr vs e req db = inr (d, s) ->
     Student.is_inside_event s = true ->
     Student.last_checkin_at s = None ->
     statusOf (snd (scanStudentQR vr vs e req db)) = Some 200 /\
     reply_action (snd (scanStudentQR vr vs e req db)) = Some EXIT /\
     reply_duration (snd (scanStudentQR vr vs e req db)) = Some 0).
Proof.
  intros Hpk. split.
  - intros c m data. rewrite scan_gate.
    destruct (gate vr vs e req db) as [reply|[d s]] eqn:Hg.
    + cbn. intros ->. apply gate_reply_not_accepted in Hg. discriminate.
    + apply gate_found in Hg as (Hfind & _ & _).
      pose proof (found_by_key _ _ _ Hpk Hfind) as Hkey.
      destruct (handler (toggle_and_record e req s) db) as [db' reply] eqn:Hrun.
      cbn [snd]. intros -> Hact.
      apply (toggle_and_record_sent e req s db db' c m _ Hkey) in Hrun
        as [_ Hreply].
      pose proof (find_some_elem _ _ _ Hfind) as [_ Hreg].
      apply has_registration_no_true in Hreg.
      destruct (Student.is_inside_event s) eqn:Hin; cbn in Hreply;
        injection Hreply as -> -> ->; [|discriminate].
      cbn. rewrite toggle_registration_no, Hreg.
      exists s. rewrite Hfind. repeat split; try assumption.
      destruct (Student.last_checkin_at s) as [entry|] eqn:Hc.
      * destruct (duration_of_nonneg e s entry Hin Hc) as [Heq Hnn].
        rewrite <- Heq. by split.
      * unfold duration_of. by rewrite Hin, Hc.
  - intros d s Hf Hg Hin Hc. rewrite scan_gate, Hg.
    apply gate_found in Hg as (Hfind & _ & _).
    pose proof (found_by_key _ _ _ Hpk Hfind) as Hkey.
    rewrite (toggle_and_record_no_faults e req s db Hf Hkey).
    unfold duration_of. rewrite Hin, Hc. by cbn.
Qed.

(** The ledger after a scan that met no fault: one new row for an ENTRY and
    for an EXIT with an entry time on record, none for an EXIT without. *)
Lemma recorded_ledger e req s (db : DB Token) :
  check_in_outs (recorded e req s db)
  = match Student.is_inside_event s, Student.last_checkin_at s with
    | false, _ =>
        (check_in_outs db ++ [ledger_row db req s CHECKIN None])%list
    | true, Some _ =>
        (check_in_outs db
           ++ [ledger_row db req s CHECKOUT (Some (duration_of e s))])%list
    | true, None => check_in_outs db
    end.
Proof.
  unfold recorded, toggled.
  by destruct (Student.is_inside_event s), (Student.last_checkin_at s).
Qed.

(** ** Failures before and after the toggle *)

Lemma gate_reply_status e req (db : DB Token) reply :
  gate vr vs e req db = inl reply ->
  statusOf reply = Some 400 \/ statusOf reply = Some 404 \/
  statusOf reply = Some 403.
Proof.
  unfold gate. intros Hg.
  repeat match type of Hg with
         | context [match ?x with _ => _ end] => destruct x
         end; inversion Hg; cbn; auto.
Qed.

(** C4. If token verification, the attendee lookup or the operator check
    fails, the request fails (status 400, 404 or 403) and the database is
    unchanged; a toggle that the database refuses also leaves it unchanged;
    and once the toggle has run, the presence of the scanned row is flipped
    in the database the request leaves behind, whichever of the later writes
    (ledger insert, duration update, operator counter) fail. *)
Theorem fail_fast_then_no_rollback e req (db : DB Token) :
  (forall reply,
     gate vr vs e req db = inl reply ->
     scanStudentQR vr vs e req db = (db, reply) /\
     accepted reply = false /\
     (statusOf reply = Some 400 \/ statusOf reply = Some 404 \/
      statusOf reply = Some 403))
  /\
  (forall d s,
     gate vr vs e req db = inr (d, s) ->
     toggle_fails (faults e) = true ->
     fst (scanStudentQR vr vs e req db) = db /\
     accepted (snd (scanStudentQR vr vs e req db)) = false)
  /\
  (forall d s,
     gate vr vs e req db = inr (d, s) ->
     toggle_fails (faults e) = false ->
     presence_of_id (Student.id s) (fst (scanStudentQR vr vs e req db))
     = negb <$> presence_of_id (Student.id s) db /\
     is_Some (presence_of_id (Student.id s) db)).
Proof.
  split; [|split].
  - intros reply Hg. split; [by rewrite scan_gate, Hg|].
    split; [by eapply gate_reply_not_accepted | by eapply gate_reply_status].
  - intros d s Hg Hfail. rewrite scan_gate, Hg.
    unfold handler, toggle_and_record, Student_processCheckInOut.
    rewrite Hfail. by split.
  - intros d s Hg Hok. rewrite scan_gate, Hg.
    apply gate_found in Hg as (Hfind & _ & _).
    apply find_some_elem in Hfind as [Hin _].
    split; [by apply toggle_and_record_flips|].
    unfold presence_of_id.
    destruct (find (has_id (Student.id s)) (students db)) as [x|] eqn:E;
      [by eexists|].
    apply list_elem_of_In in Hin. eapply find_none in E; [|exact Hin].
    by rewrite (proj2 (has_id_true _ _) eq_refl) in E.
Qed.

(** ** The operator check *)

(** C6, as the handler has it. When the scanning operator has a volunteer
    row that is marked inactive, the request fails and the database is
    unchanged; the failure is the 403 of the operator check whenever the
    token verifies and the attendee is found, which the handler checks
    first.  An operator without a volunteer row is not stopped by this
    check. *)
Theorem inactive_operator_is_refused e req (db : DB Token) v :
  volunteers db !! user_id req = Some v ->
  Volunteer.is_active v = false ->
  fst (scanStudentQR vr vs e req db) = db /\
  accepted (snd (scanStudentQR vr vs e req db)) = false /\
  forall tok d s,
    qr_code_token req = Some tok ->
    verify_token vr vs e tok = Some d ->
    valid d = true ->
    find (has_registration_no (registration_no d)) (students db) = Some s ->
    snd (scanStudentQR vr vs e req db)
    = errorResponse "Your volunteer account is inactive. Contact admin." 403.
Proof.
  intros Hv Hact.
  assert (exists reply, gate vr vs e req db = inl reply) as [reply Hg].
  { unfold gate. rewrite Hv. unfold inactive. rewrite Hact. cbn.
    repeat match goal with
           | |- context [match ?x with _ => _ end] => destruct x
           end; eauto. }
  rewrite scan_gate, Hg. cbn. repeat split.
  - by eapply gate_reply_not_accepted.
  - intros tok d s Htok Hd Hvalid Hs. unfold gate in Hg.
    rewrite Htok, Hd, Hvalid, Hs, Hv in Hg. unfold inactive in Hg.
    rewrite Hact in Hg. cbn in Hg. by injection Hg as <-.
Qed.

(** ** Verification failures *)

(** C7. Every presented token that fails verification, for whatever reason
    the verifiers have (a token that does not decode, a signature that fits
    no candidate window, a static fallback that fails), gets the same reply,
    status 400 with the message [Invalid QR code], and leaves the database
    unchanged: two failing requests cannot be told apart by their replies. *)
Theorem invalid_tokens_look_alike e1 e2 req1 req2 (db1 db2 : DB Token)
  tok1 tok2 :
  qr_code_token req1 = Some tok1 ->
  qr_code_token req2 = Some tok2 ->
  verification_fails (verify_token vr vs e1 tok1) = true ->
  verification_fails (verify_token vr vs e2 tok2) = true ->
  scanStudentQR vr vs e1 req1 db1 = (db1, errorResponse "Invalid QR code" 400)
  /\
  scanStudentQR vr vs e2 req2 db2 = (db2, errorResponse "Invalid QR code" 400)
  /\
  snd (scanStudentQR vr vs e1 req1 db1) = snd (scanStudentQR vr vs e2 req2 db2).
Proof.
  intros Ht1 Ht2 Hf1 Hf2.
  assert (forall e req (db : DB Token) tok,
            qr_code_token req = Some tok ->
            verification_fails (verify_token vr vs e tok) = true ->
            scanStudentQR vr vs e req db
            = (db, errorResponse "Invalid QR code" 400)) as Hone.
  { intros e req db tok Ht Hf. rewrite scan_gate. unfold gate. rewrite Ht.
    unfold verification_fails in Hf.
    destruct (verify_token vr vs e tok) as [d|]; [|reflexivity].
    by rewrite Hf. }
  rewrite (Hone e1 req1 db1 tok1 Ht1 Hf1), (Hone e2 req2 db2 tok2 Ht2 Hf2).
  by repeat split.
Qed.

(** ** The reply of an accepted scan *)

(** Steps 4 to 9 end in a thrown error or in the reply built for the action
    that was decided from the row read before the toggle. *)
Lemma toggle_and_record_reply e req s (db : DB Token) :
  (exists err, snd (handler (toggle_and_record e req s) db) = Next err) \/
  (exists u dur,
     snd (handler (toggle_and_record e req s) db)
     = scan_reply e req s u (action_for (Student.is_inside_event s)) dur).
Proof.
  unfold handler, toggle_and_record, Student_processCheckInOut,
    CheckInOut_create, Student_updateActiveDuration,
    increment_scans_performed.
  destruct (toggle_fails (faults e)); [left; by eexists|].
  cbn -[scan_reply Z.div Z.mul].
  unfold bind at 1. cbn -[scan_reply Z.div Z.mul].
  destruct (find _ _) as [u|];
    destruct (Student.is_inside_event s);
    try destruct (Student.last_checkin_at s);
    destruct (ledger_fails (faults e)), (duration_fails (faults e)),
      (counter_fails (faults e));
    cbn -[scan_reply Z.div Z.mul];
    first [left; by eexists | right; by do 2 eexists].
Qed.

Lemma scan_reply_follows_action e (req : ScanRequest Token) s u dur :
  match scan_reply e req s u (action_for (Student.is_inside_event s)) dur with
  | Sent c true m (Some data) =>
      match action data with
      | ENTRY =>
          c = 201 /\
          m = "Student checked in successfully at entry gate" /\
          (exists name, message data
                        = "Welcome " +:+ name +:+ "! Enjoy the event.") /\
          is_Some (check_in_time (student data)) /\
          check_out_time (student data) = None /\
          duration_minutes (student data) = None /\
          duration_formatted (student data) = None
      | EXIT =>
          c = 200 /\
          m = "Student checked out successfully at exit gate" /\
          (exists name minutes,
             duration_minutes (student data) = Some minutes /\
             duration_formatted (student data)
             = Some (format_duration minutes) /\
             message data
             = "Goodbye " +:+ name +:+ "! You spent " +:+
               format_duration minutes +:+ " at the event.") /\
          is_Some (check_out_time (student data)) /\
          check_in_time (student data) = None
      end
  | _ => False
  end.
Proof.
  destruct (Student.is_inside_event s); cbn -[format_duration];
    repeat split; eauto.
Qed.

(** C10. The status of an accepted scan follows the action: an ENTRY is
    answered with 201, the welcome message and the check-in time, and with
    no check-out time and no duration field; an EXIT is answered with 200,
    the goodbye message, the check-out time and both duration fields, and
    with no check-in time.  A reply that is not a success has neither
    status. *)
Theorem reply_follows_action e req (db : DB Token) :
  match snd (scanStudentQR vr vs e req db) with
  | Sent c true m (Some data) =>
      match action data with
      | ENTRY =>
          c = 201 /\
          m = "Student checked in successfully at entry gate" /\
          (exists name, message data
                        = "Welcome " +:+ name +:+ "! Enjoy the event.") /\
          is_Some (check_in_time (student data)) /\
          check_out_time (student data) = None /\
          duration_minutes (student data) = None /\
          duration_formatted (student data) = None
      | EXIT =>
          c = 200 /\
          m = "Student checked out successfully at exit gate" /\
          (exists name minutes,
             duration_minutes (student data) = Some minutes /\
             duration_formatted (student data)
             = Some (format_duration minutes) /\
             message data
             = "Goodbye " +:+ name +:+ "! You spent " +:+
               format_duration minutes +:+ " at the event.") /\
          is_Some (check_out_time (student data)) /\
          check_in_time (student data) = None
      end
  | Sent c true m None => False
  | Sent c false m _ => c <> 200 /\ c <> 201
  | Next _ => True
  end.
Proof.
  rewrite scan_gate.
  destruct (gate vr vs e req db) as [reply|[d s]] eqn:Hg.
  - cbn. pose proof (gate_reply_not_accepted _ _ _ _ Hg) as Hna.
    pose proof (gate_reply_status _ _ _ _ Hg) as Hst.
    destruct reply as [c [|] m dat|]; try discriminate; [|exact I].
    cbn in Hst. split; intros ->; destruct Hst as [?|[?|?]]; discriminate.
  - destruct (toggle_and_record_reply e req s db) as [[err ->]|(u & dur & ->)];
      [exact I|].
    pose proof (scan_reply_follows_action e req s u dur) as Hshape.
    destruct (scan_reply e req s u _ dur) as [c [|] m [data|]|];
      try contradiction.
    exact Hshape.
Qed.
End ScanFacts.

(** ** The stall handlers *)

Section StallFacts.
Context {Token : Type} `{EqDecision Token}.
Variable verifyStall : Token -> option StallDecoded.

(** C9, as the handlers have it. A student who is not inside the event can
    neither scan a stall nor submit feedback: both requests fail and leave
    the database unchanged.  The failure is the 403 of the presence check
    whenever the request passes the checks the handler makes first (for a
    stall scan a token that verifies and names a stall, for feedback a stall
    id and a rating between 1 and 5); otherwise it is the error of the
    earlier check. *)
Theorem outside_student_is_refused e (req : StallRequest Token)
  (freq : FeedbackRequest) (db : DB Token) s sf :
  find (has_id (stall_user_id req)) (students db) = Some s ->
  Student.is_inside_event s = false ->
  find (has_id (feedback_user_id freq)) (students db) = Some sf ->
  Student.is_inside_event sf = false ->
  (fst (scanStall verifyStall e req db) = db /\
   accepted (snd (scanStall verifyStall e req db)) = false /\
   forall token st,
     stall_qr_token req = Some token ->
     stall_invalid (verifyStall token) = false ->
     find (has_qr_token token) (stalls db) = Some st ->
     snd (scanStall verifyStall e req db)
     = errorResponse "You must be checked in at the event to scan stalls" 403)
  /\
  (fst (submitFeedback e freq db) = db /\
   accepted (snd (submitFeedback e freq db)) = false /\
   forall stall_id rating,
     req_stall_id freq = Some stall_id -> stall_id <> "" ->
     req_rating freq = Some rating -> 1 <= rating <= 5 ->
     snd (submitFeedback e freq db)
     = errorResponse
         "You must be checked in at the event to submit feedback" 403).
Proof.
  intros Hs Hout Hsf Houtf. split.
  - unfold scanStall, handler, bind, Stall_findByQRToken, Student_findById,
      get, ret.
    destruct (stall_qr_token req) as [token|]; [|by repeat split].
    destruct (stall_invalid (verifyStall token)) eqn:Hinv.
    { repeat split; try done. intros token' st [= <-]. congruence. }
    cbn. destruct (find (has_qr_token token) (stalls db)) as [st|] eqn:Hst.
    + rewrite Hs, Hout. by repeat split.
    + repeat split; try done. intros token' st [= <-]. congruence.
  - unfold submitFeedback, handler, bind, Student_findById, get, ret.
    destruct (req_stall_id freq) as [[|a stall_id]|].
    + repeat split; try done. by intros stall_id rating [= <-].
    + destruct (req_rating freq) as [[|rating|rating]|].
      * repeat split; try done. intros stall_id' rating' _ _ [= <-]. lia.
      * destruct (bool_decide (Z.pos rating < 1)
                  || bool_decide (Z.pos rating > 5)) eqn:Hr.
        { repeat split; try done. intros stall_id' rating' _ _ [= <-] Hrange.
          apply orb_true_iff in Hr as [Hr|Hr];
            apply bool_decide_eq_true in Hr; lia. }
        cbn. rewrite Hsf, Houtf. by repeat split.
      * assert (bool_decide (Z.neg rating < 1) = true) as ->
          by (apply bool_decide_eq_true; lia).
        repeat split; try done. intros stall_id' rating' _ _ [= <-]. lia.
      * repeat split; try done.
    + repeat split; try done.
Qed.
End StallFacts.

(** ** The token codec *)

Section CodecFacts.
Import QRCodeService.
Context {Sig : Type} `{EqDecision Sig}.
Variable sign : string -> Z -> Sig.
Variable sign_static : string -> Sig.

Lemma candidate_windows_spec now w :
  w ∈ candidate_windows now
  <-> window_index now - 2 <= w <= window_index now + 2.
Proof.
  unfold candidate_windows, GRACE_PERIOD_WINDOWS.
  rewrite elem_of_seqZ. lia.
Qed.

(** The verifier accepts a rotating token exactly when one of its candidate
    windows carries the signature of the token. *)
Lemma verifyRotating_accepts registration_no window sig now :
  verifyRotating sign (Rotating registration_no window sig) now
  = inr registration_no
  <-> exists w, w ∈ candidate_windows now /\ sign registration_no w = sig.
Proof.
  cbn. destruct (existsb _ _) eqn:E.
  - apply existsb_exists in E as (w & Hin & Hw).
    apply bool_decide_eq_true in Hw. apply list_elem_of_In in Hin.
    split; [by exists w|done].
  - split; [discriminate|]. intros (w & Hin & Hw). exfalso.
    assert (existsb (fun w => bool_decide (sign registration_no w = sig))
              (candidate_windows now) = true) as E'.
    { apply existsb_exists. exists w. split; [by apply list_elem_of_In|].
      by apply bool_decide_eq_true. }
    congruence.
Qed.

Lemma verifyRotating_rejects registration_no window sig now :
  verifyRotating sign (Rotating registration_no window sig) now
  = inl InvalidOrExpired
  <-> ~ exists w, w ∈ candidate_windows now /\ sign registration_no w = sig.
Proof.
  rewrite <- (verifyRotating_accepts registration_no window sig now). cbn.
  destruct (existsb _ _); split; try done.
Qed.

(** C5. A rotating token generated at time [t] is accepted at every
    verification time whose window index is within two windows of the
    window index of [t], and is rejected as invalid or expired at every
    other verification time, provided that signatures over different
    windows differ; so a token of window 100 verifies at the windows 98 to
    102 and is rejected at the windows 97 and 103. *)
Theorem rotating_token_grace_window registration_no t t' :
  (forall w1 w2, sign registration_no w1 = sign registration_no w2 -> w1 = w2) ->
  let token := generateRotatingStudentToken sign registration_no t in
  (window_index t - 2 <= window_index t' <= window_index t + 2 ->
   verifyRotating sign token t' = inr registration_no)
  /\
  (~ (window_index t - 2 <= window_index t' <= window_index t + 2) ->
   verifyRotating sign token t' = inl InvalidOrExpired)
  /\
  (window_index t = 100 ->
   (window_index t' ∈ [98; 99; 100; 101; 102] ->
    verifyRotating sign token t' = inr registration_no) /\
   (window_index t' = 97 \/ window_index t' = 103 ->
    verifyRotating sign token t' = inl InvalidOrExpired)).
Proof.
  intros Hinj token.
  assert (window_index t - 2 <= window_index t' <= window_index t + 2 ->
          verifyRotating sign token t' = inr registration_no) as Hacc.
  { intros Hr. apply verifyRotating_accepts. exists (window_index t).
    split; [apply candidate_windows_spec; lia|reflexivity]. }
  assert (~ (window_index t - 2 <= window_index t' <= window_index t + 2) ->
          verifyRotating sign token t' = inl InvalidOrExpired) as Hrej.
  { intros Hr. apply verifyRotating_rejects. intros (w & Hin & Hw).
    apply Hinj in Hw. subst w. apply candidate_windows_spec in Hin. lia. }
  split; [exact Hacc|]. split; [exact Hrej|].
  intros H100. split.
  - intros Hin. apply Hacc. rewrite H100.
    repeat (apply elem_of_cons in Hin as [->|Hin]; [lia|]).
    by apply elem_of_nil in Hin.
  - intros Hout. apply Hrej. lia.
Qed.

Lemma verifyStallQRToken_issued asset :
  verifyStallQRToken sign_static (generateStallQRToken sign_static asset)
  = Some (mkStallDecoded true asset).
Proof.
  unfold verifyStallQRToken, generateStallQRToken. cbn.
  by rewrite bool_decide_eq_true_2.
Qed.

(** C8. A static stall token is verified by its signature alone: the token
    issued for an asset verifies, a well-formed stall token is rejected
    exactly when its signature is not the one of its asset, and the stall
    scan of the student controller gives the same result whatever the clock
    of the request reads; with the issued token stored on the stall, a
    student inside the event gets the stall back at every time. *)
Theorem static_token_never_expires :
  (forall asset, verifyStall sign_static (generateStallQRToken sign_static asset)
                 = Some asset)
  /\
  (forall asset sig,
     verifyStall sign_static (StaticStall asset sig) = None
     <-> sig <> sign_static asset)
  /\
  (forall e e' req (db : DB (Token Sig)),
     scanStall (verifyStallQRToken sign_static) e req db
     = scanStall (verifyStallQRToken sign_static) e' req db)
  /\
  (forall e req (db : DB (Token Sig)) asset st s,
     stall_qr_token req = Some (generateStallQRToken sign_static asset) ->
     find (has_qr_token (generateStallQRToken sign_static asset)) (stalls db)
     = Some st ->
     find (has_id (stall_user_id req)) (students db) = Some s ->
     Student.is_inside_event s = true ->
     fst (scanStall (verifyStallQRToken sign_static) e req db) = db /\
     exists data,
       snd (scanStall (verifyStallQRToken sign_static) e req db)
       = successResponse data "Stall scanned successfully" 200 /\
       stall data = summary_of_stall st).
Proof.
  split; [|split; [|split]].
  - intros asset. cbn. by rewrite bool_decide_eq_true_2.
  - intros asset sig. cbn. case_bool_decide; split; try done; congruence.
  - reflexivity.
  - intros e req db asset st s Htok Hst Hs Hin.
    unfold scanStall, handler, bind, Stall_findByQRToken, Student_findById,
      Feedback_findByStudentAndStall, get, ret.
    rewrite Htok, verifyStallQRToken_issued.
    cbn. rewrite Hst, Hs, Hin. cbn. split; [reflexivity|].
    eexists. split; reflexivity.
Qed.
End CodecFacts.

(** ** The sample event *)

Lemma sample_primary_key : primary_key Sample.db.
Proof.
  unfold primary_key. apply (bool_decide_unpack _). vm_compute. exact I.
Qed.

(** C1 fails as stated: when the update of the operator counter is refused
    in the first scan of an attendee who is outside, the toggle has already
    moved the attendee inside and the request ends in an error; the next
    scan is accepted as an EXIT, so the accepted scans of the attendee start
    with EXIT and not with ENTRY. *)
Lemma accepted_scans_can_start_with_exit :
  presence "REG001" Sample.db = Some false /\
  statusOf <$> snd (Sample.replay Sample.interrupted Sample.db)
  = [None; Some 200] /\
  accepted_actions "REG001" (snd (Sample.replay Sample.interrupted Sample.db))
  = [EXIT] /\
  alternates ENTRY
    (accepted_actions "REG001"
       (snd (Sample.replay Sample.interrupted Sample.db)))
  = false.
Proof. vm_compute. by repeat split. Qed.

Lemma accepted_scans_alternate_witness :
  (Forall (fun ev => fails_after_toggle (faults (ev_env ev)) = false)
     Sample.morning_with_refusal /\
   primary_key Sample.db /\
   presence "REG001" Sample.db = Some false) /\
  alternates ENTRY
    (accepted_actions "REG001"
       (snd (Sample.replay Sample.morning_with_refusal Sample.db)))
  = true.
Proof.
  assert (Forall (fun ev => fails_after_toggle (faults (ev_env ev)) = false)
            Sample.morning_with_refusal)
    as Hall by (repeat constructor).
  assert (presence "REG001" Sample.db = Some false) as Hout
    by (vm_compute; reflexivity).
  split; [by repeat split; try apply sample_primary_key|].
  exact (proj1 (accepted_scans_alternate
                  Sample.verifyRotatingStudentToken Sample.verifyStudentQRToken
                  Sample.morning_with_refusal Sample.db "REG001"
                  Hall sample_primary_key Hout)).
Defined.

(** The scenario of the specification: an entry at 10:00:00, an exit at
    10:45:30 with 45 minutes. *)
Example entry_then_exit :
  (fun replies => (reply_action <$> replies, reply_duration <$> replies))
    (snd (Sample.replay
            [Sample.event "v-1" "REG001" Sample.t_1000;
             Sample.event "v-1" "REG001" Sample.t_1045] Sample.db))
  = ([Some ENTRY; Some EXIT], [None; Some 45]).
Proof. vm_compute. reflexivity. Qed.

(** C2 fails as stated: with the server clock set back two minutes between
    an entry and the next exit, the accepted EXIT reports minus two minutes,
    not a duration clamped at zero. *)
Lemma exit_duration_is_not_clamped :
  exists reply d,
    snd (Sample.replay Sample.clock_set_back Sample.db) !! 1%nat = Some reply /\
    reply_action reply = Some EXIT /\
    reply_duration reply = Some d /\
    d = -2 /\ ~ 0 <= d.
Proof.
  eexists _, _. split; [vm_compute; reflexivity|].
  split; [reflexivity|]. split; [reflexivity|]. split; [reflexivity|]. lia.
Qed.

Lemma exit_duration_witness :
  primary_key Sample.db /\
  statusOf (snd (Sample.scan (Sample.at_time Sample.t_1000)
                   (Sample.scan_of "v-1" "REG002" Sample.t_1000) Sample.db))
  = Some 200 /\
  reply_action (snd (Sample.scan (Sample.at_time Sample.t_1000)
                       (Sample.scan_of "v-1" "REG002" Sample.t_1000) Sample.db))
  = Some EXIT /\
  reply_duration (snd (Sample.scan (Sample.at_time Sample.t_1000)
                         (Sample.scan_of "v-1" "REG002" Sample.t_1000)
                         Sample.db))
  = Some 0.
Proof.
  split; [exact sample_primary_key|].
  apply (proj2 (exit_duration
                  Sample.verifyRotatingStudentToken Sample.verifyStudentQRToken
                  (Sample.at_time Sample.t_1000)
                  (Sample.scan_of "v-1" "REG002" Sample.t_1000) Sample.db
                  sample_primary_key)
           (mkDecoded true false "REG002") Sample.binod);
    vm_compute; reflexivity.
Defined.

(** C3 fails on the code: the EXIT of an attendee who is inside with no
    entry time on record is accepted and counted, the scan count of the
    attendee goes from 1 to 2, and no row is added to the scan ledger. *)
Lemma exit_without_entry_time_writes_no_ledger_row :
  let out := Sample.scan (Sample.at_time Sample.t_1000)
               (Sample.scan_of "v-1" "REG002" Sample.t_1000) Sample.db in
  find (has_registration_no "REG002") (students Sample.db) = Some Sample.binod /\
  Student.is_inside_event Sample.binod = true /\
  Student.last_checkin_at Sample.binod = None /\
  statusOf (snd out) = Some 200 /\
  reply_action (snd out) = Some EXIT /\
  Student.total_scan_count
    <$> find (has_registration_no "REG002") (students (fst out)) = Some 2 /\
  check_in_outs (fst out) = check_in_outs Sample.db /\
  check_in_outs (fst out) = [].
Proof. vm_compute. repeat split; reflexivity. Qed.

Lemma fail_fast_then_no_rollback_witness :
  (* an unreadable code: nothing changes *)
  (let req := mkScanRequest "v-1" "gate@sgtu.ac.in"
                (Some (QRCodeService.Malformed "not a code")) in
   Sample.scan (Sample.at_time Sample.t_1000) req Sample.db
   = (Sample.db, errorResponse "Invalid QR code" 400))
  /\
  (* the ledger insert is refused after the toggle: the flip stays *)
  (let e := Sample.ledger_down Sample.t_1000 in
   let req := Sample.scan_of "v-1" "REG001" Sample.t_1000 in
   toggle_fails (faults e) = false /\
   accepted (snd (Sample.scan e req Sample.db)) = false /\
   presence_of_id "s-1" Sample.db = Some false /\
   presence_of_id "s-1" (fst (Sample.scan e req Sample.db)) = Some true).
Proof.
  split.
  - destruct (fail_fast_then_no_rollback
                Sample.verifyRotatingStudentToken Sample.verifyStudentQRToken
                (Sample.at_time Sample.t_1000)
                (mkScanRequest "v-1" "gate@sgtu.ac.in"
                   (Some (QRCodeService.Malformed "not a code")))
                Sample.db) as (Hfast & _ & _).
    apply (Hfast (errorResponse "Invalid QR code" 400)).
    vm_compute. reflexivity.
  - destruct (fail_fast_then_no_rollback
                Sample.verifyRotatingStudentToken Sample.verifyStudentQRToken
                (Sample.ledger_down Sample.t_1000)
                (Sample.scan_of "v-1" "REG001" Sample.t_1000)
                Sample.db) as (_ & _ & Hflip).
    destruct (Hflip (mkDecoded true false "REG001") Sample.asha) as [Hf _];
      [vm_compute; reflexivity | reflexivity |].
    cbn zeta. split; [reflexivity|]. split; [vm_compute; reflexivity|].
    split; [vm_compute; reflexivity|].
    unfold Sample.scan. change "s-1" with (Student.id Sample.asha).
    rewrite Hf. vm_compute. reflexivity.
Defined.

(** C6 fails as stated: an operator with no volunteer row at all is not an
    active authorised operator, yet the scan is accepted with status 201 and
    the attendee is moved inside. *)
Lemma operator_without_row_is_not_refused :
  let req := Sample.scan_of "v-9" "REG001" Sample.t_1000 in
  let out := Sample.scan (Sample.at_time Sample.t_1000) req Sample.db in
  volunteers Sample.db !! user_id req = None /\
  statusOf (snd out) = Some 201 /\
  statusOf (snd out) <> Some 403 /\
  presence "REG001" Sample.db = Some false /\
  presence "REG001" (fst out) = Some true /\
  fst out <> Sample.db.
Proof.
  cbn zeta. split; [vm_compute; reflexivity|].
  split; [vm_compute; reflexivity|].
  split; [vm_compute; discriminate|].
  split; [vm_compute; reflexivity|].
  assert (presence "REG001"
            (fst (Sample.scan (Sample.at_time Sample.t_1000)
                    (Sample.scan_of "v-9" "REG001" Sample.t_1000) Sample.db))
          = Some true) as Hin by (vm_compute; reflexivity).
  split; [exact Hin|].
  intros Heq. rewrite Heq in Hin. vm_compute in Hin. discriminate.
Qed.

Lemma inactive_operator_is_refused_witness :
  let req := Sample.scan_of "v-2" "REG001" Sample.t_1000 in
  let out := Sample.scan (Sample.at_time Sample.t_1000) req Sample.db in
  (volunteers Sample.db !! user_id req = Some Sample.suspended /\
   Volunteer.is_active Sample.suspended = false) /\
  fst out = Sample.db /\
  accepted (snd out) = false /\
  snd out
  = errorResponse "Your volunteer account is inactive. Contact admin." 403.
Proof.
  cbn zeta.
  assert (volunteers Sample.db
            !! user_id (Sample.scan_of "v-2" "REG001" Sample.t_1000)
          = Some Sample.suspended) as Hv by (vm_compute; reflexivity).
  split; [by split|].
  destruct (inactive_operator_is_refused
              Sample.verifyRotatingStudentToken Sample.verifyStudentQRToken
              (Sample.at_time Sample.t_1000)
              (Sample.scan_of "v-2" "REG001" Sample.t_1000)
              Sample.db Sample.suspended Hv eq_refl) as (Hdb & Hacc & Hmsg).
  split; [exact Hdb|]. split; [exact Hacc|].
  apply (Hmsg (QRCodeService.generateRotatingStudentToken Sample.sign
                 "REG001" Sample.t_1000)
              (mkDecoded true false "REG001") Sample.asha);
    vm_compute; reflexivity.
Defined.

(** An unreadable code is [InvalidFormat] and a code of a window long gone
    is [InvalidOrExpired] for the codec. *)
Example two_kinds_of_failure :
  QRCodeService.verifyRotating Sample.sign
    (QRCodeService.Malformed "not a code") Sample.t_1000
  = inl QRCodeService.InvalidFormat /\
  QRCodeService.verifyRotating Sample.sign Sample.stale_code Sample.t_1000
  = inl QRCodeService.InvalidOrExpired.
Proof. vm_compute. by split. Qed.

Lemma invalid_tokens_look_alike_witness :
  let req1 := mkScanRequest "v-1" "gate@sgtu.ac.in"
                (Some (QRCodeService.Malformed "not a code")) in
  let req2 := mkScanRequest "v-1" "gate@sgtu.ac.in" (Some Sample.stale_code) in
  let e := Sample.at_time Sample.t_1000 in
  (verification_fails
     (verify_token Sample.verifyRotatingStudentToken Sample.verifyStudentQRToken
        e (QRCodeService.Malformed "not a code")) = true /\
   verification_fails
     (verify_token Sample.verifyRotatingStudentToken Sample.verifyStudentQRToken
        e Sample.stale_code) = true) /\
  Sample.scan e req1 Sample.db
  = (Sample.db, errorResponse "Invalid QR code" 400) /\
  Sample.scan e req2 Sample.db
  = (Sample.db, errorResponse "Invalid QR code" 400) /\
  snd (Sample.scan e req1 Sample.db) = snd (Sample.scan e req2 Sample.db).
Proof.
  cbn zeta. split; [split; vm_compute; reflexivity|].
  apply (invalid_tokens_look_alike
           Sample.verifyRotatingStudentToken Sample.verifyStudentQRToken
           (Sample.at_time Sample.t_1000) (Sample.at_time Sample.t_1000)
           (mkScanRequest "v-1" "gate@sgtu.ac.in"
              (Some (QRCodeService.Malformed "not a code")))
           (mkScanRequest "v-1" "gate@sgtu.ac.in" (Some Sample.stale_code))
           Sample.db Sample.db
           (QRCodeService.Malformed "not a code") Sample.stale_code);
    vm_compute; reflexivity.
Defined.

Lemma reply_follows_action_witness :
  statusOf (snd (Sample.scan (Sample.at_time Sample.t_1000)
                   (Sample.scan_of "v-1" "REG001" Sample.t_1000) Sample.db))
  = Some 201 /\
  statusOf (snd (Sample.scan (Sample.at_time Sample.t_1000)
                   (Sample.scan_of "v-1" "REG003" Sample.t_1000) Sample.db))
  = Some 200.
Proof.
  pose proof (reply_follows_action
                Sample.verifyRotatingStudentToken Sample.verifyStudentQRToken
                (Sample.at_time Sample.t_1000)
                (Sample.scan_of "v-1" "REG001" Sample.t_1000) Sample.db)
    as Hentry.
  pose proof (reply_follows_action
                Sample.verifyRotatingStudentToken Sample.verifyStudentQRToken
                (Sample.at_time Sample.t_1000)
                (Sample.scan_of "v-1" "REG003" Sample.t_1000) Sample.db)
    as Hexit.
  unfold Sample.scan.
  destruct (snd (scanStudentQR _ _ _
                   (Sample.scan_of "v-1" "REG001" Sample.t_1000) _))
    as [c1 ok1 m1 [d1|]|] eqn:E1; try (vm_compute in E1; discriminate).
  destruct (snd (scanStudentQR _ _ _
                   (Sample.scan_of "v-1" "REG003" Sample.t_1000) _))
    as [c2 ok2 m2 [d2|]|] eqn:E2; try (vm_compute in E2; discriminate).
  assert (ok1 = true /\ action d1 = ENTRY) as [-> Ha1]
    by (vm_compute in E1; by injection E1 as <- <- <- <-).
  assert (ok2 = true /\ action d2 = EXIT) as [-> Ha2]
    by (vm_compute in E2; by injection E2 as <- <- <- <-).
  rewrite Ha1 in Hentry. rewrite Ha2 in Hexit.
  destruct Hentry as [-> _]. destruct Hexit as [-> _]. by split.
Defined.

(** C9 fails as stated: a student who is outside and sends no stall code, or
    a rating of 9, is turned away with the 400 of the earlier check, not
    with 403. *)
Lemma outside_student_can_get_400 :
  find (has_id "s-1") (students Sample.db) = Some Sample.asha /\
  Student.is_inside_event Sample.asha = false /\
  snd (Sample.scanStall (Sample.at_time Sample.t_1000)
         (mkStallRequest "s-1" None) Sample.db)
  = errorResponse "Stall QR code is required" 400 /\
  snd (submitFeedback (Sample.at_time Sample.t_1000)
         (mkFeedbackRequest "s-1" (Some "st-1") (Some 9) None) Sample.db)
  = errorResponse "Rating must be between 1 and 5" 400 /\
  statusOf (snd (Sample.scanStall (Sample.at_time Sample.t_1000)
                   (mkStallRequest "s-1" None) Sample.db)) <> Some 403.
Proof. vm_compute. repeat split; try reflexivity. discriminate. Qed.

Lemma outside_student_is_refused_witness :
  let token := QRCodeService.generateStallQRToken Sample.sign_static "S-01" in
  let req := mkStallRequest "s-1" (Some token) in
  let freq := mkFeedbackRequest "s-1" (Some "st-1") (Some 4) (Some "Great") in
  let e := Sample.at_time Sample.t_1000 in
  (find (has_id "s-1") (students Sample.db) = Some Sample.asha /\
   Student.is_inside_event Sample.asha = false) /\
  Sample.scanStall e req Sample.db
  = (Sample.db,
     errorResponse "You must be checked in at the event to scan stalls" 403) /\
  submitFeedback e freq Sample.db
  = (Sample.db,
     errorResponse "You must be checked in at the event to submit feedback"
       403).
Proof.
  cbn zeta.
  assert (find (has_id "s-1") (students Sample.db) = Some Sample.asha) as Hs
    by (vm_compute; reflexivity).
  split; [by split|].
  destruct (outside_student_is_refused Sample.verifyStallQRToken
              (Sample.at_time Sample.t_1000)
              (mkStallRequest "s-1"
                 (Some (QRCodeService.generateStallQRToken
                          Sample.sign_static "S-01")))
              (mkFeedbackRequest "s-1" (Some "st-1") (Some 4) (Some "Great"))
              Sample.db Sample.asha Sample.asha Hs eq_refl Hs eq_refl)
    as [(Hdb1 & _ & Hmsg1) (Hdb2 & _ & Hmsg2)].
  split.
  - unfold Sample.scanStall.
    rewrite (surjective_pairing (scanStall _ _ _ _)), Hdb1.
    rewrite (Hmsg1 (QRCodeService.generateStallQRToken
                      Sample.sign_static "S-01") Sample.robotics);
      vm_compute; reflexivity.
  - rewrite (surjective_pairing (submitFeedback _ _ _)), Hdb2.
    rewrite (Hmsg2 "st-1" 4); try reflexivity; [discriminate|lia].
Defined.

Lemma rotating_token_grace_window_witness :
  (forall w1 w2, Sample.sign "REG001" w1 = Sample.sign "REG001" w2 -> w1 = w2)
  /\
  let token :=
    QRCodeService.generateRotatingStudentToken Sample.sign "REG001" 3000000 in
  QRCodeService.window_index 3000000 = 100 /\
  QRCodeService.verifyRotating Sample.sign token (98 * 30000)
  = inr "REG001" /\
  QRCodeService.verifyRotating Sample.sign token (102 * 30000 + 29999)
  = inr "REG001" /\
  QRCodeService.verifyRotating Sample.sign token (97 * 30000 + 29999)
  = inl QRCodeService.InvalidOrExpired /\
  QRCodeService.verifyRotating Sample.sign token (103 * 30000)
  = inl QRCodeService.InvalidOrExpired.
Proof.
  assert (forall w1 w2,
            Sample.sign "REG001" w1 = Sample.sign "REG001" w2 -> w1 = w2)
    as Hinj by (intros w1 w2 Hw; by injection Hw).
  split; [exact Hinj|]. cbn zeta. split; [reflexivity|].
  split; [|split; [|split]].
  - apply (proj1 (rotating_token_grace_window Sample.sign
                    "REG001" 3000000 (98 * 30000) Hinj)).
    vm_compute. split; discriminate.
  - apply (proj1 (rotating_token_grace_window Sample.sign
                    "REG001" 3000000 (102 * 30000 + 29999) Hinj)).
    vm_compute. split; discriminate.
  - apply (proj1 (proj2 (rotating_token_grace_window Sample.sign
                           "REG001" 3000000 (97 * 30000 + 29999) Hinj))).
    vm_compute. intros [H97 _]. by apply H97.
  - apply (proj1 (proj2 (rotating_token_grace_window Sample.sign
                           "REG001" 3000000 (103 * 30000) Hinj))).
    vm_compute. intros [_ H103]. by apply H103.
Defined.

Lemma static_token_never_expires_witness :
  let token := QRCodeService.generateStallQRToken Sample.sign_static "S-01" in
  let req := mkStallRequest "s-3" (Some token) in
  (find (has_qr_token token) (stalls Sample.db) = Some Sample.robotics /\
   find (has_id "s-3") (students Sample.db) = Some Sample.chitra /\
   Student.is_inside_event Sample.chitra = true) /\
  forall e,
    fst (Sample.scanStall e req Sample.db) = Sample.db /\
    exists data,
      snd (Sample.scanStall e req Sample.db)
      = successResponse data "Stall scanned successfully" 200 /\
      stall data = summary_of_stall Sample.robotics.
Proof.
  cbn zeta.
  assert (find (has_qr_token
                  (QRCodeService.generateStallQRToken Sample.sign_static "S-01"))
            (stalls Sample.db) = Some Sample.robotics) as Hst
    by (vm_compute; reflexivity).
  assert (find (has_id "s-3") (students Sample.db) = Some Sample.chitra) as Hs
    by (vm_compute; reflexivity).
  split; [by repeat split|].
  intros e.
  exact (proj2 (proj2 (proj2 (static_token_never_expires Sample.sign_static)))
           e (mkStallRequest "s-3"
                (Some (QRCodeService.generateStallQRToken
                         Sample.sign_static "S-01")))
           Sample.db "S-01" Sample.robotics Sample.chitra
           eq_refl Hst Hs eq_refl).
Defined.

(** ** Two handlers at once

    The handler reads the student row in one awaited call and toggles it in
    a later one.  When two requests for the same attendee have both read the
    row before either toggles, both decide from the same row: both replies
    say ENTRY and the attendee ends up outside.  The statements above are
    about requests handled one after the other. *)
Remark stale_read_repeats_entry :
  let e := Sample.at_time Sample.t_1000 in
  let req := Sample.scan_of "v-1" "REG001" Sample.t_1000 in
  let verifyRotating := Sample.verifyRotatingStudentToken in
  let verifyStatic := Sample.verifyStudentQRToken in
  gate verifyRotating verifyStatic e req Sample.db
  = inr (mkDecoded true false "REG001", Sample.asha) /\
  let first := handler (toggle_and_record e req Sample.asha) Sample.db in
  let second := handler (toggle_and_record e req Sample.asha) (fst first) in
  reply_action (snd first) = Some ENTRY /\
  reply_action (snd second) = Some ENTRY /\
  presence "REG001" (fst second) = Some false.
Proof. vm_compute. repeat split; reflexivity. Qed.

(** * Further properties of the handlers *)

(** ** What a scan can change *)

Section ScanFrame.
Context {Token : Type} `{EqDecision Token}.
Variable vr : Z -> Token -> Decoded.
Variable vs : Token -> option Decoded.

(** The database after steps 4 to 9, whatever fails: the students table is
    untouched, toggled, or toggled and credited with a duration; the ledger
    has at most one more row; only the counter of the operator moves; the
    other tables stay. *)
Lemma toggle_and_record_frame e req s (db : DB Token) :
  let db' := fst (handler (toggle_and_record e req s) db) in
  (students db' = students db \/
   students db' = update_where (Student.id s) (toggle (now e)) (students db) \/
   exists m,
     students db'
     = update_where (Student.id s) (add_duration m)
         (update_where (Student.id s) (toggle (now e)) (students db))) /\
  (exists rows, check_in_outs db' = (check_in_outs db ++ rows)%list /\
                (length rows <= 1)%nat) /\
  (volunteers db' = volunteers db \/
   volunteers db' = alter bump_scans (user_id req) (volunteers db)) /\
  stalls db' = stalls db /\
  feedbacks db' = feedbacks db.
Proof.
  assert (forall l : list CheckInOut.t,
             exists rows, l = (l ++ rows)%list /\ (length rows <= 1)%nat)
    as Hnil by (intros l; exists []; by rewrite app_nil_r; auto).
  assert (forall (l : list CheckInOut.t) row,
             exists rows, (l ++ [row])%list = (l ++ rows)%list /\
                          (length rows <= 1)%nat)
    as Hone by (intros l row; exists [row]; auto).
  unfold handler, toggle_and_record, Student_processCheckInOut,
    CheckInOut_create, Student_updateActiveDuration,
    increment_scans_performed.
  destruct (toggle_fails (faults e)); [cbn; by auto 10|].
  cbn -[scan_reply Z.div Z.mul].
  unfold bind at 1. cbn -[scan_reply Z.div Z.mul].
  destruct (find _ _) as [u|];
    destruct (Student.is_inside_event s);
    try destruct (Student.last_checkin_at s);
    destruct (ledger_fails (faults e)), (duration_fails (faults e)),
      (counter_fails (faults e));
    cbn -[scan_reply Z.div Z.mul]; eauto 10.
Qed.

(** X1. The scan ledger is append-only: whatever the request and whatever
    fails, a scan leaves every ledger row in place and adds at most one row
    after them; it never touches the stalls and the feedback. *)
Theorem scan_appends_to_ledger e req (db : DB Token) :
  exists rows,
    check_in_outs (fst (scanStudentQR vr vs e req db))
    = (check_in_outs db ++ rows)%list /\
    (length rows <= 1)%nat /\
    stalls (fst (scanStudentQR vr vs e req db)) = stalls db /\
    feedbacks (fst (scanStudentQR vr vs e req db)) = feedbacks db.
Proof.
  rewrite scan_gate.
  destruct (gate vr vs e req db) as [reply|[d s]].
  - exists []. cbn. rewrite app_nil_r. repeat split; lia.
  - destruct (toggle_and_record_frame e req s db)
      as (_ & (rows & Hrows & Hlen) & _ & Hstalls & Hfb).
    exists rows. by repeat split.
Qed.

Lemma gate_decoded e req (db : DB Token) d s :
  gate vr vs e req db = inr (d, s) ->
  exists tok, qr_code_token req = Some tok /\
              verify_token vr vs e tok = Some d.
Proof.
  unfold gate. intros Hg.
  destruct (qr_code_token req) as [tok|]; [|discriminate].
  destruct (verify_token vr vs e tok) as [d'|] eqn:Hd; [|discriminate].
  destruct (negb (valid d')); [discriminate|].
  destruct (find _ (students db)) as [s'|]; [|discriminate].
  destruct (inactive _); [discriminate|].
  injection Hg as <- <-. by exists tok.
Qed.

(** An update of the rows with the key [i] leaves the row found for a
    registration number as it is when that row has another key. *)
Lemma update_where_other_key (l : list Student.t) i r f :
  (forall x, find (has_registration_no r) l = Some x -> Student.id x <> i) ->
  (forall x, Student.registration_no (f x) = Student.registration_no x) ->
  find (has_registration_no r) (update_where i f l)
  = find (has_registration_no r) l.
Proof.
  intros Hkey Hf. rewrite find_reg_update_where by exact Hf.
  destruct (find (has_registration_no r) l) as [x|] eqn:Hx; [|reflexivity].
  cbn. f_equal.
  destruct (has_id i x) eqn:Hid; [|reflexivity].
  apply has_id_true in Hid. by destruct (Hkey x eq_refl).
Qed.

Lemma other_attendee_other_key (l : list Student.t) s r r' :
  NoDup (Student.id <$> l) ->
  find (has_registration_no r) l = Some s ->
  r' <> r ->
  forall x, find (has_registration_no r') l = Some x ->
            Student.id x <> Student.id s.
Proof.
  intros Hnd Hs Hne x Hx Hid.
  apply find_some_elem in Hx as [Hxin Hxr].
  apply find_some_elem in Hs as [Hsin Hsr].
  apply has_registration_no_true in Hxr, Hsr.
  assert (x = s) by (by apply (primary_key_inj l)).
  congruence.
Qed.

(** X2. A scan never changes the row of another attendee: on a students
    table with a primary key, when the presented code does not verify to the
    registration number [r], the row found for [r] is the same before and
    after the request, whatever fails. *)
Theorem scan_leaves_other_attendees e req (db : DB Token) r :
  primary_key db ->
  (forall tok d, qr_code_token req = Some tok ->
                 verify_token vr vs e tok = Some d ->
                 registration_no d <> r) ->
  find (has_registration_no r) (students (fst (scanStudentQR vr vs e req db)))
  = find (has_registration_no r) (students db).
Proof.
  intros Hpk Hother. rewrite scan_gate.
  destruct (gate vr vs e req db) as [reply|[d s]] eqn:Hg; [reflexivity|].
  destruct (gate_decoded _ _ _ _ _ Hg) as (tok & Htok & Hd).
  apply gate_found in Hg as (Hfind & _ & _).
  pose proof (Hother tok d Htok Hd) as Hne.
  assert (r <> registration_no d) as Hne' by congruence.
  pose proof (other_attendee_other_key _ s _ r Hpk Hfind Hne') as Hkey.
  destruct (toggle_and_record_frame e req s db)
    as ([-> | [-> | [m ->]]] & _); [reflexivity| |].
  - apply update_where_other_key; auto using toggle_registration_no.
  - rewrite update_where_other_key; [| |reflexivity].
    + apply update_where_other_key; auto using toggle_registration_no.
    + intros x.
      rewrite update_where_other_key by auto using toggle_registration_no.
      apply Hkey.
Qed.

(** X3. The ledger row of an accepted scan: on a students table with a
    primary key, an accepted ENTRY adds one CHECKIN row and an accepted EXIT
    of an attendee with an entry time on record adds one CHECKOUT row, for
    the scanned student and the scanning operator, numbered with the scan
    count of the reply and carrying the duration of the reply (none for an
    ENTRY); an accepted EXIT without an entry time on record adds no row. *)
Theorem accepted_scan_ledger_row e req (db : DB Token) c m data :
  primary_key db ->
  snd (scanStudentQR vr vs e req db) = Sent c true m (Some data) ->
  exists s,
    find (has_registration_no (summary_registration_no (student data)))
      (students db) = Some s /\
    check_in_outs (fst (scanStudentQR vr vs e req db))
    = match action data, Student.last_checkin_at s with
      | ENTRY, _ =>
          (check_in_outs db
             ++ [CheckInOut.mk (Z.of_nat (length (check_in_outs db)))
                   (id (student data)) (user_id req) CHECKIN
                   (total_scan_count (student data)) None])%list
      | EXIT, Some _ =>
          (check_in_outs db
             ++ [CheckInOut.mk (Z.of_nat (length (check_in_outs db)))
                   (id (student data)) (user_id req) CHECKOUT
                   (total_scan_count (student data))
                   (duration_minutes (student data))])%list
      | EXIT, None => check_in_outs db
      end.
Proof.
  intros Hpk. rewrite scan_gate.
  destruct (gate vr vs e req db) as [reply|[d s]] eqn:Hg.
  - cbn. intros ->. apply gate_reply_not_accepted in Hg. discriminate.
  - apply gate_found in Hg as (Hfind & _ & _).
    pose proof (found_by_key _ _ _ Hpk Hfind) as Hkey.
    destruct (handler (toggle_and_record e req s) db) as [db' reply] eqn:Hrun.
    cbn [fst snd]. intros ->.
    apply (toggle_and_record_sent e req s db db' c m _ Hkey) in Hrun
      as [-> Hreply].
    pose proof (find_some_elem _ _ _ Hfind) as [_ Hreg].
    apply has_registration_no_true in Hreg.
    exists s. rewrite recorded_ledger. unfold ledger_row, duration_of.
    destruct (Student.is_inside_event s) eqn:Hin; cbn in Hreply;
      injection Hreply as -> -> ->; cbn;
      rewrite toggle_registration_no, toggle_id, Hreg, Hfind;
      (split; [reflexivity|]); unfold toggle; rewrite Hin; cbn.
    + unfold duration_of. rewrite Hin.
      by destruct (Student.last_checkin_at s).
    + reflexivity.
Qed.

Lemma recorded_volunteers e req s (db : DB Token) :
  volunteers (recorded e req s db)
  = alter bump_scans (user_id req) (volunteers db).
Proof.
  unfold recorded, toggled.
  by destruct (Student.is_inside_event s), (Student.last_checkin_at s).
Qed.

Lemma scan_reply_scanned_by e (req : ScanRequest Token) s u a dur v :
  scanned_by v (scan_reply e req s u a dur) = bool_decide (user_id req = v).
Proof. by destruct a. Qed.

(** One scan without faults, seen from the operator [u]. *)
Lemma scan_counts_for_operator e req (db : DB Token) u :
  faults e = no_faults ->
  primary_key db ->
  primary_key (fst (scanStudentQR vr vs e req db)) /\
  Volunteer.total_scans_performed
    <$> volunteers (fst (scanStudentQR vr vs e req db)) !! u
  = (fun n => if scanned_by u (snd (scanStudentQR vr vs e req db))
              then n + 1 else n)
      <$> (Volunteer.total_scans_performed <$> volunteers db !! u).
Proof.
  intros Hf Hpk. rewrite scan_gate.
  destruct (gate vr vs e req db) as [reply|[d s]] eqn:Hg.
  - cbn [fst snd]. split; [exact Hpk|].
    apply gate_reply_not_accepted in Hg.
    destruct reply as [c [|] m dat|]; try discriminate; cbn;
      by destruct (volunteers db !! u).
  - apply gate_found in Hg as (Hfind & _ & _).
    pose proof (found_by_key _ _ _ Hpk Hfind) as Hkey.
    rewrite (toggle_and_record_no_faults e req s db Hf Hkey). cbn [fst snd].
    split; [by apply recorded_primary_key|].
    rewrite scan_reply_scanned_by, recorded_volunteers, lookup_alter.
    case_bool_decide as Hu; case_decide; try congruence; subst;
      by destruct (volunteers db !! _).
Qed.

(** X4. The operator counter counts the accepted scans: in every run of scan
    requests handled one after the other on a students table with a primary
    key, in which no database write fails, an operator's
    [total_scans_performed] after the run is its value before the run plus
    the number of accepted scans whose reply names that operator. *)
Theorem operator_counter_counts_accepted_scans evs (db : DB Token) u :
  Forall (fun ev => faults (ev_env ev) = no_faults) evs ->
  primary_key db ->
  Volunteer.total_scans_performed
    <$> volunteers (fst (run_scans vr vs evs db)) !! u
  = (fun n => n + scans_by u (snd (run_scans vr vs evs db)))
      <$> (Volunteer.total_scans_performed <$> volunteers db !! u).
Proof.
  intros Hall. revert db.
  induction Hall as [|ev evs Hev Hall IH]; intros db Hpk.
  - unfold scans_by. cbn.
    destruct (volunteers db !! u); cbn; [f_equal; lia|reflexivity].
  - cbn [run_scans].
    pose proof (scan_counts_for_operator (ev_env ev) (ev_req ev) db u Hev Hpk)
      as [Hpk' Hstep].
    destruct (scanStudentQR vr vs (ev_env ev) (ev_req ev) db) as [db1 reply].
    cbn [fst snd] in *. specialize (IH db1 Hpk').
    destruct (run_scans vr vs evs db1) as [db2 replies]. cbn [fst snd] in *.
    rewrite IH, Hstep. unfold scans_by. cbn [List.filter].
    destruct (volunteers db !! u) as [v|]; [|reflexivity]. cbn. f_equal.
    destruct (scanned_by u reply); cbn [length]; lia.
Qed.

Lemma toggle_and_record_same_operator e (req req' : ScanRequest Token) s :
  user_id req' = user_id req ->
  user_email req' = user_email req ->
  toggle_and_record e req' s = toggle_and_record e req s.
Proof.
  intros Hu He. unfold toggle_and_record, scan_reply.
  by rewrite Hu, He.
Qed.

(** X5. A scan depends on the presented code only through the registration
    number it verifies to: two requests of the same operator whose codes
    verify, by whichever verifiers and whether as a rotating or as a static
    code, to the same registration number have the same effect and the same
    reply. *)
Theorem scan_depends_on_registration_no
  (vr' : Z -> Token -> Decoded) (vs' : Token -> option Decoded)
  e req req' (db : DB Token) tok tok' d d' :
  qr_code_token req = Some tok ->
  qr_code_token req' = Some tok' ->
  user_id req' = user_id req ->
  user_email req' = user_email req ->
  verify_token vr vs e tok = Some d ->
  verify_token vr' vs' e tok' = Some d' ->
  valid d = true ->
  valid d' = true ->
  registration_no d' = registration_no d ->
  scanStudentQR vr' vs' e req' db = scanStudentQR vr vs e req db.
Proof.
  intros Htok Htok' Hu He Hd Hd' Hv Hv' Hreg.
  rewrite !scan_gate. unfold gate.
  rewrite Htok, Htok', Hd, Hd', Hv, Hv', Hreg, Hu. cbn [negb].
  destruct (find _ (students db)) as [s|]; [|reflexivity].
  destruct (inactive _); [reflexivity|].
  by rewrite (toggle_and_record_same_operator e req req' s Hu He).
Qed.
End ScanFrame.

(** ** The stall handlers, continued *)

Section StallMore.
Context {Token : Type} `{EqDecision Token}.
Variable verifyStall : Token -> option StallDecoded.

(** X6. A stall scan reads and never writes: whatever the request, the
    database after [scanStall] is the database before it. *)
Theorem scanStall_is_read_only e (req : StallRequest Token) (db : DB Token) :
  fst (scanStall verifyStall e req db) = db.
Proof.
  unfold scanStall, handler, bind, Stall_findByQRToken, Student_findById,
    Feedback_findByStudentAndStall, get, ret.
  destruct (stall_qr_token req) as [token|]; [|reflexivity].
  destruct (stall_invalid (verifyStall token)); [reflexivity|]. cbn.
  destruct (find (has_qr_token token) (stalls db)) as [st|]; [|reflexivity].
  destruct (find _ (students db)) as [s|]; [|reflexivity].
  by destruct (negb (Student.is_inside_event s)).
Qed.

(** A feedback request either is refused, and then nothing changes, or
    passes every check of the handler, and then the database and the reply
    are the ones of an accepted feedback. *)
Lemma submitFeedback_cases e freq (db : DB Token) :
  (accepted (snd (submitFeedback e freq db)) = false /\
   fst (submitFeedback e freq db) = db)
  \/
  exists stall_id rating s st,
    req_stall_id freq = Some stall_id /\ stall_id <> "" /\
    req_rating freq = Some rating /\ 1 <= rating <= 5 /\
    find (has_id (feedback_user_id freq)) (students db) = Some s /\
    Student.is_inside_event s = true /\
    feedback_count_of (feedback_user_id freq) db < 200 /\
    find (stall_has_id stall_id) (stalls db) = Some st /\
    find (feedback_of (feedback_user_id freq) stall_id) (feedbacks db) = None /\
    submitFeedback e freq db
    = (submitted e db (feedback_user_id freq) stall_id rating
         (req_comment freq),
       successResponse
         (mkFeedbackData
            (mkFeedbackSummary (Z.of_nat (length (feedbacks db)))
               (Stall.stall_name st) (Stall.stall_number st) rating
               (comment_or_null (req_comment freq)) (now e))
            (feedback_count_of (feedback_user_id freq) db + 1)
            (200 - (feedback_count_of (feedback_user_id freq) db + 1)))
         "Feedback submitted successfully" 201).
Proof.
  unfold submitFeedback, handler, bind, Student_findById, Stall_findById,
    Feedback_countByStudent, Feedback_findByStudentAndStall, Feedback_create,
    Student_incrementFeedbackCount, modify, get, ret.
  fold (feedback_count_of (feedback_user_id freq) db).
  destruct (req_stall_id freq) as [[|a stall_id]|]; [by left| |by left].
  destruct (req_rating freq) as [[|rating|rating]|]; [by left| | |by left].
  2:{ assert (bool_decide (Z.neg rating < 1) = true) as ->
        by (apply bool_decide_eq_true; lia).
      by left. }
  destruct (bool_decide (Z.pos rating < 1) || bool_decide (Z.pos rating > 5))
    eqn:Hr; [by left|].
  apply orb_false_iff in Hr as [Hlo Hhi].
  apply bool_decide_eq_false in Hlo, Hhi. cbn.
  destruct (find (has_id (feedback_user_id freq)) (students db)) as [s|] eqn:Hs;
    [|by left].
  destruct (Student.is_inside_event s) eqn:Hin; [|by left]. cbn.
  case_bool_decide as Hcount; [by left|]. cbn.
  destruct (find (stall_has_id (String a stall_id)) (stalls db)) as [st|]
    eqn:Hst; [|by left].
  destruct (find (feedback_of (feedback_user_id freq) (String a stall_id))
              (feedbacks db)) as [f|] eqn:Hf; [by left|].
  right. exists (String a stall_id), (Z.pos rating), s, st.
  repeat split; try done; unfold feedback_count_of; lia.
Qed.

(** X7. Feedback is all or nothing: a feedback request that is not answered
    with a success leaves the whole database as it was, and a success is
    always the status 201. *)
Theorem feedback_changes_only_on_success e freq (db : DB Token) :
  (accepted (snd (submitFeedback e freq db)) = false ->
   fst (submitFeedback e freq db) = db) /\
  (accepted (snd (submitFeedback e freq db)) = true ->
   statusOf (snd (submitFeedback e freq db)) = Some 201).
Proof.
  destruct (submitFeedback_cases e freq db)
    as [[Hrej Hdb]|(stall_id & rating & s & st & _ & _ & _ & _ & _ & _ & _
                    & _ & _ & ->)].
  - split; [by intros _|]. intros Hacc. congruence.
  - split; [discriminate|reflexivity].
Qed.

Lemma feedback_count_of_submitted e (db : DB Token) uid stall_id rating c :
  feedback_count_of uid (submitted e db uid stall_id rating c)
  = feedback_count_of uid db + 1.
Proof.
  unfold feedback_count_of, submitted. cbn.
  rewrite filter_app, length_app, filter_cons_True by reflexivity.
  rewrite filter_nil. cbn. lia.
Qed.

Lemma comment_or_null_not_empty c : comment_or_null c <> Some "".
Proof. by destruct c as [[|a c]|]. Qed.

(** X8. The accounting of an accepted feedback: the reply's count of
    feedbacks given is the number of feedback rows the student has after the
    request, it and the remaining allowance add up to 200 and the allowance
    is never negative; exactly one row is added to the feedback table, for
    that student and the stall of the request, with a rating between 1 and 5
    and a comment that is absent rather than empty. *)
Theorem accepted_feedback_accounting e freq (db : DB Token) c m data :
  snd (submitFeedback e freq db) = Sent c true m (Some data) ->
  total_feedbacks_given data + remaining_feedbacks data = 200 /\
  0 <= remaining_feedbacks data < 200 /\
  total_feedbacks_given data
  = feedback_count_of (feedback_user_id freq) (fst (submitFeedback e freq db)) /\
  exists row,
    feedbacks (fst (submitFeedback e freq db)) = (feedbacks db ++ [row])%list /\
    Feedback.student_id row = feedback_user_id freq /\
    req_stall_id freq = Some (Feedback.stall_id row) /\
    Feedback.rating row = fb_rating (feedback data) /\
    1 <= Feedback.rating row <= 5 /\
    Feedback.comment row = fb_comment (feedback data) /\
    Feedback.comment row <> Some "".
Proof.
  destruct (submitFeedback_cases e freq db)
    as [[Hrej Hdb]|(stall_id & rating & s & st & Hsid & _ & _ & Hrange & _ & _
                    & Hcount & _ & _ & ->)].
  - intros Hsent. rewrite Hsent in Hrej. discriminate.
  - cbn [fst snd]. unfold successResponse. intros [= <- <- <-]. cbn.
    rewrite feedback_count_of_submitted.
    assert (0 <= feedback_count_of (feedback_user_id freq) db)
      by (unfold feedback_count_of; lia).
    repeat split; try lia.
    eexists. split; [reflexivity|]. cbn.
    repeat split; try done; try lia. apply comment_or_null_not_empty.
Qed.

Lemma find_app_last {A} (p : A -> bool) (l : list A) (x : A) :
  find p l = None -> p x = true -> find p (l ++ [x])%list = Some x.
Proof.
  intros Hnone Hx. induction l as [|y l IH]; cbn in *; [by rewrite Hx|].
  destruct (p y); [discriminate|by apply IH].
Qed.

Lemma bump_stall_id i j (st : Stall.t Token) :
  stall_has_id i (bump_stall j st) = stall_has_id i st.
Proof. unfold bump_stall. by destruct (stall_has_id j st). Qed.

(** X9. Feedback is given once per stall: after an accepted feedback, the
    same request sent again, at any time, is refused and changes nothing;
    the refusal is the 409 of the duplicate check, unless the accepted
    feedback was the student's 200th, in which case the limit check, which
    comes first, answers 403. *)
Theorem feedback_is_given_once e e' freq (db : DB Token) :
  accepted (snd (submitFeedback e freq db)) = true ->
  submitFeedback e' freq (fst (submitFeedback e freq db))
  = (fst (submitFeedback e freq db),
     if bool_decide
          (feedback_count_of (feedback_user_id freq)
             (fst (submitFeedback e freq db)) >= 200)
     then errorResponse "You have reached the maximum feedback limit (200)" 403
     else errorResponse
            "You have already submitted feedback for this stall" 409).
Proof.
  destruct (submitFeedback_cases e freq db)
    as [[Hrej Hdb]|(stall_id & rating & s & st & Hsid & Hne & Hrat & Hrange
                    & Hs & Hin & Hcount & Hst & Hnone & ->)].
  - intros Hacc. congruence.
  - intros _. cbn [fst].
    set (db1 := submitted e db (feedback_user_id freq) stall_id rating
                  (req_comment freq)).
    assert (find (has_id (feedback_user_id freq)) (students db1)
            = Some (bump_feedback s)) as Hs1.
    { unfold db1, submitted, set_stalls, set_students, set_feedbacks.
      cbn [students].
      rewrite find_id_update_where, Hs by reflexivity. cbn.
      apply find_some_elem in Hs as [_ ->]. reflexivity. }
    assert (find (stall_has_id stall_id) (stalls db1)
            = Some (bump_stall stall_id st)) as Hst1.
    { unfold db1, submitted, set_stalls, set_students, set_feedbacks.
      cbn [stalls].
      rewrite find_map_stable, Hst by apply bump_stall_id. reflexivity. }
    assert (is_Some (find (feedback_of (feedback_user_id freq) stall_id)
                       (feedbacks db1))) as [f Hf1].
    { unfold db1, submitted. cbn. eexists. apply find_app_last; [exact Hnone|].
      unfold feedback_of, feedback_row. cbn.
      by rewrite !bool_decide_eq_true_2. }
    clearbody db1.
    unfold submitFeedback, handler, bind, Student_findById, Stall_findById,
      Feedback_countByStudent, Feedback_findByStudentAndStall, get, ret.
    rewrite Hsid, Hrat.
    destruct stall_id as [|a stall_id]; [done|].
    destruct rating as [|rating|rating]; try lia.
    assert (bool_decide (Z.pos rating < 1) || bool_decide (Z.pos rating > 5)
            = false) as ->.
    { apply orb_false_iff. split; apply bool_decide_eq_false; lia. }
    cbn. rewrite Hs1. cbn. rewrite Hin. cbn.
    fold (feedback_count_of (feedback_user_id freq) db1).
    case_bool_decide; [reflexivity|]. cbn.
    rewrite Hst1. by rewrite Hf1.
Qed.
End StallMore.

(** ** Codes served and codes scanned *)

Section CodeFacts.
Context {Token : Type} `{EqDecision Token}.
Variable verifyStall : Token -> option StallDecoded.

(** X10. The volunteer's stall scan is at least as permissive as the
    student's: every code with which a student's [scanStall] succeeds makes
    [scanStallQR] succeed for the same stall; and a stored code for which
    the verifier returns a result marked invalid is still accepted by
    [scanStallQR], which only tests the result for [null], while [scanStall]
    refuses it with 400. *)
Theorem volunteer_stall_scan_is_more_permissive
  (req : ScanRequest Token) (db : DB Token) :
  (forall e sreq c m data,
     stall_qr_token sreq = qr_code_token req ->
     snd (scanStall verifyStall e sreq db) = Sent c true m (Some data) ->
     exists card,
       scanStallQR verifyStall req db
       = (db, successResponse card "QR code verified successfully" 200) /\
       card_id card = stall_id (stall data) /\
       card_stall_number card = stall_number (stall data) /\
       card_stall_name card = stall_name (stall data))
  /\
  (forall token decoded st,
     qr_code_token req = Some token ->
     verifyStall token = Some decoded ->
     stall_valid decoded = false ->
     find (has_qr_token token) (stalls db) = Some st ->
     statusOf (snd (scanStallQR verifyStall req db)) = Some 200 /\
     forall e sreq,
       stall_qr_token sreq = Some token ->
       scanStall verifyStall e sreq db
       = (db, errorResponse "Invalid stall QR code" 400)).
Proof.
  split.
  - intros e sreq c m data Htok.
    unfold scanStall, scanStallQR, handler, bind, Stall_findByQRToken,
      Student_findById, Feedback_findByStudentAndStall, get, ret.
    rewrite Htok.
    destruct (qr_code_token req) as [token|]; [|discriminate].
    unfold stall_invalid.
    destruct (verifyStall token) as [decoded|]; [|discriminate].
    destruct (negb (stall_valid decoded)); [discriminate|]. cbn.
    destruct (find (has_qr_token token) (stalls db)) as [st|]; [|discriminate].
    destruct (find _ (students db)) as [s|]; [|discriminate].
    destruct (negb (Student.is_inside_event s)); [discriminate|]. cbn.
    intros [= <- <- <-]. eexists. by repeat split.
  - intros token decoded st Htok Hd Hinvalid Hst. split.
    + unfold scanStallQR, handler, bind, Stall_findByQRToken, get, ret.
      by rewrite Htok, Hd; cbn; rewrite Hst.
    + intros e sreq Hsreq. unfold scanStall, handler, stall_invalid.
      by rewrite Hsreq, Hd, Hinvalid.
Qed.

(** X11. A served stall code resolves: when [getStallQRCode] answers with a
    code, the answer is a 200 that changes nothing, the code is the one
    stored on the stall asked for, and [Stall.findByQRToken] finds a stall
    that stores it, so that a volunteer's scan of the served code is never
    answered with [Stall not found]. *)
Theorem served_stall_code_resolves
  (image : Token -> string) (defaultMessage : string)
  id (req : ScanRequest Token) (db : DB Token) c m data :
  snd (getStallQRCode image defaultMessage id db) = Sent c true m (Some data) ->
  c = 200 /\
  fst (getStallQRCode image defaultMessage id db) = db /\
  (exists st, find (stall_has_id id) (stalls db) = Some st /\
              Stall.qr_code_token st = Some (stall_token data)) /\
  (exists st, find (has_qr_token (stall_token data)) (stalls db) = Some st /\
              Stall.qr_code_token st = Some (stall_token data)) /\
  (qr_code_token req = Some (stall_token data) ->
   statusOf (snd (scanStallQR verifyStall req db)) <> Some 404).
Proof.
  unfold getStallQRCode, handler, bind, Stall_findById, get, ret.
  cbn. destruct (find (stall_has_id id) (stalls db)) as [st|] eqn:Hst;
    [|discriminate].
  destruct (Stall.qr_code_token st) as [token|] eqn:Htoken; [|discriminate].
  cbn. intros [= <- <- <-]. cbn.
  assert (exists st', find (has_qr_token token) (stalls db) = Some st' /\
                      Stall.qr_code_token st' = Some token) as (st' & Hst' & Ht').
  { destruct (find (has_qr_token token) (stalls db)) as [st'|] eqn:E.
    - exists st'. split; [reflexivity|].
      apply find_some_elem in E as [_ E]. unfold has_qr_token in E.
      by apply bool_decide_eq_true in E.
    - apply find_some_elem in Hst as [Hin _]. apply list_elem_of_In in Hin.
      eapply find_none in E; [|exact Hin]. unfold has_qr_token in E.
      apply bool_decide_eq_false in E. contradiction. }
  repeat split; eauto.
  intros Hreq. unfold scanStallQR, handler, bind, Stall_findByQRToken, get, ret.
  rewrite Hreq. destruct (verifyStall token); [|discriminate].
  cbn. rewrite Hst'. discriminate.
Qed.
End CodeFacts.

(** ** The served rotating code *)

Section ServedCode.
Import QRCodeService.
Context {Sig : Type} `{EqDecision Sig}.
Variable sign : string -> Z -> Sig.
Variable sign_static : string -> Sig.

Lemma window_index_within_grace t t' :
  t - 60000 <= t' <= t + 60000 ->
  window_index t - 2 <= window_index t' <= window_index t + 2.
Proof.
  unfold window_index, ROTATION_INTERVAL_SECONDS. change (30 * 1000) with 30000.
  intros [Hlo Hhi].
  assert ((t - 60000) / 30000 = t / 30000 - 2) as Hl
    by (replace (t - 60000) with (t + (-2) * 30000) by lia;
        rewrite Z.div_add by lia; lia).
  assert ((t + 60000) / 30000 = t / 30000 + 2) as Hh
    by (replace (t + 60000) with (t + 2 * 30000) by lia;
        rewrite Z.div_add by lia; lia).
  pose proof (Z.div_le_mono (t - 60000) t' 30000 ltac:(lia) Hlo).
  pose proof (Z.div_le_mono t' (t + 60000) 30000 ltac:(lia) Hhi).
  lia.
Qed.

(** X12. The grace period that [getQRCode] advertises is honoured: the code
    served to a student at time [t] comes with [grace_period_seconds] = 60,
    and at every verification time within that many seconds of [t], before
    or after, step 1 of the scan accepts it as a rotating code for the
    student's registration number, for any signature function. *)
Theorem served_code_verifies_within_grace
  (image : Student.t -> Z -> string) (seconds : Z -> Z)
  (defaultMessage : string) e user_id (db : DB (Token Sig)) c m data :
  snd (getQRCode
         (fun s t => generateRotatingStudentToken sign
                       (Student.registration_no s) t)
         image seconds defaultMessage e user_id db)
  = Sent c true m (Some data) ->
  grace_period_seconds (rotation_info data) = 60 /\
  (exists s, find (has_id user_id) (students db) = Some s /\
             served_registration_no data = Student.registration_no s) /\
  forall e',
    now e - grace_period_seconds (rotation_info data) * 1000 <= now e'
    <= now e + grace_period_seconds (rotation_info data) * 1000 ->
    verify_token (verifyRotatingStudentToken sign)
      (verifyStudentQRToken sign_static) e' (served_token data)
    = Some (mkDecoded true false (served_registration_no data)).
Proof.
  unfold getQRCode, handler, bind, Student_findById, get, ret.
  cbn. destruct (find (has_id user_id) (students db)) as [s|] eqn:Hs;
    [|discriminate].
  cbn. intros [= <- <- <-]. cbn.
  split; [reflexivity|]. split; [by exists s|].
  intros e' Hrange. unfold verify_token, verifyRotatingStudentToken.
  assert (verifyRotating sign
            (generateRotatingStudentToken sign (Student.registration_no s)
               (now e)) (now e')
          = inr (Student.registration_no s)) as ->; [|reflexivity].
  apply verifyRotating_accepts. exists (window_index (now e)).
  split; [|reflexivity].
  apply candidate_windows_spec.
  unfold GRACE_PERIOD_WINDOWS, ROTATION_INTERVAL_SECONDS in Hrange.
  apply window_index_within_grace. lia.
Qed.
End ServedCode.
